(** * A shallow embedding of the Go package [http_client]

    The package wraps the standard HTTP client: it encodes a payload,
    builds a request, attaches headers, sends it, classifies the response
    and decodes the body.  The development follows the sources: the error
    value and the client (src/errors.go, whose line numbers are the ones
    quoted below), the encoders (src/encoders.go) and the decoders.

    Conventions of the embedding:
    - a Go [int] is a [Z] (only comparisons are made on it);
    - a [string] and a [[]byte] are a [string];
    - a nilable value (interface, func, pointer) is an [option];
    - a [map[string]string] is the list of its entries in the order in
      which one [range] loop visits them (the order is not fixed in Go, so
      statements quantify over the list);
    - an [http.Header] is a [gmap string (list string)];
    - a call that may panic returns an [Outcome];
    - the calls made to collaborators (the transport, the after-callback)
      are recorded in a trace. *)

From stdpp Require Import base option list strings gmap fin_maps pretty.
From Stdlib Require Import ZArith Ascii String.

Set Warnings "-register-all".
Open Scope Z_scope.
Open Scope string_scope.

(** ** Go values *)

(** What a library encoder answers when asked to serialise a value. *)
Inductive Marshalled :=
| Bytes (data : string)
| MarshalError (msg : string).

(** A non-nil Go value passed as [interface{}], as the two codecs of the
    standard library see it: what [json.Marshal] returns for it and what a
    [gob] encoder writes for it.  The nil interface is [None].  The type
    covers the values on which both library calls return; an interface
    holding a nil pointer, on which the [gob] encoder panics, is outside
    it. *)
Record GoIface := {
  json_of : Marshalled;
  gob_of : Marshalled }.

(** Dynamically typed values stored in a [context.Context]. *)
Inductive GoVal :=
| VString (s : string)
| VInt (n : Z)
| VBool (b : bool)
| VNamed (type_name : string) (s : string).

#[global] Instance GoVal_eq_dec : EqDecision GoVal.
Proof. solve_decision. Defined.

(** ** The error value (src/errors.go, lines 7 to 44) *)

Record Err := {
  Code : Z;
  Message : string;
  Meta : option GoIface }.

(** Values of the interface [error].  [ErrorString] stands for the results
    of [errors.New] and [fmt.Errorf], [ErrValue] for an [Err] held by
    value, [ErrPointer] for a [*Err], and [WrapErr] for the result of
    [wrapErr.Wrap outer inner] (the inner error may be nil). *)
Inductive GoError :=
| ErrorString (msg : string)
| ErrValue (e : Err)
| ErrPointer (e : Err)
| WrapErr (outer : GoError) (inner : option GoError).

Definition Err_Error (e : Err) : string := Message e.

(** [func (e Err) Is(target error) bool] *)
Definition Err_Is (e : Err) (target : GoError) : bool :=
  match target with
  | ErrValue err2 => bool_decide (Code e = Code err2)
  | _ => false
  end.

Definition NewErr (code : Z) (message : string) (meta : option GoIface) : Err :=
  {| Code := code; Message := message; Meta := meta |}.

(** ** Readers *)

(** An [io.Reader]: the bytes it yields and, when reading fails after
    them, the error it ends with instead of [io.EOF]. *)
Record Reader := {
  content : string;
  readErr : option GoError }.

(** [bytes.NewBuffer data], read from the start. *)
Definition bytes_NewBuffer (data : string) : Reader :=
  {| content := data; readErr := None |}.

(** ** Encoders (src/encoders.go) *)

Definition DataEncoder := option GoIface → option Reader * option GoError.

(** [json.Marshal]: the nil interface serialises to the four bytes
    [null]. *)
Definition json_Marshal (payload : option GoIface) : Marshalled :=
  match payload with
  | None => Bytes "null"
  | Some v => json_of v
  end.

Definition GobEncoder : DataEncoder := λ payload,
  match payload with
  | None => (None, None)
  | Some v =>
      match gob_of v with
      | MarshalError msg => (None, Some (ErrorString ("gob enc.Encode: " +:+ msg)))
      | Bytes network => (Some (bytes_NewBuffer network), None)
      end
  end.

Definition JsonEncoder : DataEncoder := λ payload,
  match json_Marshal payload with
  | MarshalError msg => (None, Some (ErrorString ("json Marshal: " +:+ msg)))
  | Bytes data => (Some (bytes_NewBuffer data), None)
  end.

(** ** Decoders *)

(** A decoder is called with a reader and a pointer; the executor passes
    it either a pointer to an [Err] or the caller's result pointer.  It
    returns its error and the value it leaves behind the pointer. *)
Record DataDecoder := {
  decodeErr : Reader → Err → option GoError * Err;
  decodeResult : Reader → GoIface → option GoError * GoIface }.

(** The [Decode] method of a library decoder ([json.Decoder],
    [gob.Decoder]); failures are reported by their message. *)
Record LibDecoder := {
  lib_decodeErr : Reader → Err → option string * Err;
  lib_decodeResult : Reader → GoIface → option string * GoIface }.

Definition wrapDecodeFailure {A} (prefix : string) (r : option string * A)
  : option GoError * A :=
  match r.1 with
  | Some msg => (Some (ErrorString (prefix +:+ msg)), r.2)
  | None => (None, r.2)
  end.

Definition decoderOf (prefix : string) (dec : LibDecoder) : DataDecoder :=
  {| decodeErr reader res := wrapDecodeFailure prefix (lib_decodeErr dec reader res);
     decodeResult reader res := wrapDecodeFailure prefix (lib_decodeResult dec reader res) |}.

(** ** Header keys (net/textproto) *)

Definition isLowerByte (c : ascii) : bool :=
  let n := N_of_ascii c in ((97 <=? n) && (n <=? 122))%N.

Definition isUpperByte (c : ascii) : bool :=
  let n := N_of_ascii c in ((65 <=? n) && (n <=? 90))%N.

Definition isDigitByte (c : ascii) : bool :=
  let n := N_of_ascii c in ((48 <=? n) && (n <=? 57))%N.

(** The token characters of RFC 7230 other than letters and digits:
    ! # $ % & ' * + - . ^ _ ` | ~ *)
Definition tokenPunctuation : list N :=
  [33; 35; 36; 37; 38; 39; 42; 43; 45; 46; 94; 95; 96; 124; 126]%N.

Definition validHeaderFieldByte (c : ascii) : bool :=
  isLowerByte c || isUpperByte c || isDigitByte c
  || bool_decide (N_of_ascii c ∈ tokenPunctuation).

Definition toLower : N := 32.

Fixpoint allBytes (p : ascii → bool) (s : string) : bool :=
  match s with
  | EmptyString => true
  | String c rest => p c && allBytes p rest
  end.

(** The rewriting loop of [canonicalMIMEHeaderKey]: upper case for the
    first letter and for a letter after a dash, lower case elsewhere. *)
Fixpoint canonicalBytes (upper : bool) (a : string) : string :=
  match a with
  | EmptyString => EmptyString
  | String c rest =>
      let c' :=
        if upper && isLowerByte c then ascii_of_N (N_of_ascii c - toLower)
        else if negb upper && isUpperByte c then ascii_of_N (N_of_ascii c + toLower)
        else c in
      String c' (canonicalBytes (bool_decide (c' = "-"%char)) rest)
  end.

(** [textproto.CanonicalMIMEHeaderKey]: a key holding a byte that is not a
    token character is returned unchanged. *)
Definition CanonicalMIMEHeaderKey (s : string) : string :=
  if allBytes validHeaderFieldByte s then canonicalBytes true s else s.

(** [func (h Header) Set(key, value string)] and [Get]. *)
Definition Header_Set (key value : string) (h : gmap string (list string))
  : gmap string (list string) :=
  <[CanonicalMIMEHeaderKey key := [value]]> h.

Definition Header_Get (key : string) (h : gmap string (list string)) : string :=
  match h !! CanonicalMIMEHeaderKey key with
  | Some (v :: _) => v
  | _ => ""
  end.

(** [for i, v := range m { h.Set(i, v) }] *)
Definition setAll (m : list (string * string)) (h : gmap string (list string))
  : gmap string (list string) :=
  foldl (λ h kv, Header_Set kv.1 kv.2 h) h m.

(** ** Contexts *)

(** A context is the chain of its [WithValue] layers, innermost first;
    [context.Background()] is the empty chain. *)
Definition Context := list (GoVal * GoVal).

Definition context_Background : Context := [].

Fixpoint ctx_Value (ctx : Context) (key : GoVal) : option GoVal :=
  match ctx with
  | [] => None
  | (k, v) :: parent => if decide (k = key) then Some v else ctx_Value parent key
  end.

(** ** Requests and responses *)

(** A [*url.URL]: the URL that [url.Parse] makes of the string
    [parsedFrom], with its field [RawQuery] overwritten by the given string
    when there is one ([None]: the query as parsed). *)
Record URL := {
  parsedFrom : string;
  RawQuery : option string }.

Record Request := {
  reqCtx : Context;
  reqMethod : string;
  reqURL : URL;
  Header : gmap string (list string);
  reqBody : option Reader }.

Record Response := {
  StatusCode : Z;
  respHeader : gmap string (list string);
  Body : Reader }.

(** ** The client (src/errors.go, from line 61) *)

(** The fields of [http.Client] and of its transport that the package
    sets. *)
Record HttpClient2 := {
  Timeout : Z;
  MaxIdleConnsPerHost : Z }.

Record HttpClient := {
  baseUrl : string;
  errorHandler : option (Reader → option GoError);
  isError : option (Response → bool);
  headers : list (string * string);
  httpClient2 : HttpClient2;
  requestPayloadEncoder : option DataEncoder;
  requestPayloadDecoder : option DataDecoder;
  contextRequestId : string;
  headerKeyRequestID : string;
  debugMode : bool }.

Record HttpClientParams := {
  p_BaseUrl : string;
  p_ErrorHandler : option (Reader → option GoError);
  p_IsError : option (Response → bool);
  p_Headers : list (string * string);
  p_Timeout : Z;
  p_RequestPayloadEncoder : option DataEncoder;
  p_RequestPayloadDecoder : option DataDecoder;
  p_MaxIdleConnsPerHost : Z;
  p_ContextRequestId : string;
  p_HeaderKeyRequestID : string;
  p_DebugMode : bool }.

Record RequestOptions := {
  Ctx : option Context;
  Method : string;
  Url : string;
  Headers : list (string * string);
  Payload : option GoIface;
  Result : option GoIface;
  RequestPayloadEncoder : option DataEncoder;
  RequestPayloadDecoder : option DataDecoder;
  UrlParams : list (string * string);
  AfterCallback : option (Request → Response → Response) }.

(** ** Outcomes, traces and the client as state *)

Inductive PanicValue :=
| PanicError (e : GoError)
| NilDereference.

Inductive Outcome (A : Type) :=
| Return (a : A)
| Panic (v : PanicValue).
Arguments Return {A} a.
Arguments Panic {A} v.

(** What the package asks of its collaborators: a round trip of the
    transport with its answer, and a call of the after-callback. *)
Inductive Event :=
| EvDo (req : Request) (answer : Response + GoError)
| EvAfterCallback (req : Request) (resp : Response).

Record Run (A : Type) := {
  outcome : Outcome A;
  after : HttpClient;
  trace : list Event }.
Arguments outcome {A} r.
Arguments after {A} r.
Arguments trace {A} r.

(** A method with receiver [c *HttpClient]. *)
Definition M (A : Type) : Type := HttpClient → Run A.

#[global] Instance M_ret : MRet M := λ A a c,
  {| outcome := Return a; after := c; trace := [] |}.

#[global] Instance M_bind : MBind M := λ A B f m c,
  let r := m c in
  match outcome r with
  | Return a =>
      let r' := f a (after r) in
      {| outcome := outcome r'; after := after r'; trace := trace r ++ trace r' |}
  | Panic v => {| outcome := Panic v; after := after r; trace := trace r |}
  end.

Definition receiver : M HttpClient := λ c,
  {| outcome := Return c; after := c; trace := [] |}.

Definition assign (c' : HttpClient) : M unit := λ _,
  {| outcome := Return tt; after := c'; trace := [] |}.

Definition emit (ev : Event) : M unit := λ c,
  {| outcome := Return tt; after := c; trace := [ev] |}.

Definition panic {A} (v : PanicValue) : M A := λ c,
  {| outcome := Panic v; after := c; trace := [] |}.

(** Using a nilable value: calling a nil func or reading from a nil
    reader is a run-time panic. *)
Definition nonNil {A} (x : option A) : M A :=
  match x with
  | Some a => mret a
  | None => panic NilDereference
  end.

(** ** The platform *)

(** The library and network services the package calls.
    [query_Encode url params] is the string [q.Encode()] for the values
    [q] that [Query()] reads from the URL parsed from [url], after the
    pairs of [params] have been added to them.  [time_took] is the text of
    the elapsed-time message, which the package formats from two clock
    readings. *)
Record Platform := {
  json_Decode : LibDecoder;
  gob_Decode : LibDecoder;
  newRequest_check : string → string → option GoError;
  query_Encode : string → list (string * string) → string;
  http2curl_GetCurlCommand : Request → string;
  time_took : string;
  http_Do : HttpClient2 → Request → Response + GoError }.

Definition fmt_Errorf (msg : string) : GoError := ErrorString msg.

Definition wrapErr_Wrap (outer : GoError) (inner : option GoError) : GoError :=
  WrapErr outer inner.

Definition http_StatusOK : Z := 200.
Definition http_StatusBadRequest : Z := 400.

(** What a call hands back: the two results of the Go function and the
    value left behind the caller's result pointer.  The response of a
    reply stands for the response object, with the status and the headers
    that the callback left in it; the state of its body at return (read by
    the decoder, closed by the deferred [Close] of the body received) is
    not followed. *)
Record Reply := {
  reply_resp : option Response;
  reply_err : option GoError;
  reply_result : option GoIface }.

Section Client.

Context (pf : Platform).

Definition GobDecoder : DataDecoder := decoderOf "gob dec.Decode: " (gob_Decode pf).

Definition JsonDecoder : DataDecoder := decoderOf "json dec.Decode: " (json_Decode pf).

Definition NewHttpClient (params : HttpClientParams) : HttpClient :=
  {| baseUrl := p_BaseUrl params;
     errorHandler := p_ErrorHandler params;
     isError := p_IsError params;
     headers := p_Headers params;
     httpClient2 :=
       {| Timeout := p_Timeout params;
          MaxIdleConnsPerHost :=
            if decide (p_MaxIdleConnsPerHost params = 0) then 100
            else p_MaxIdleConnsPerHost params |};
     requestPayloadEncoder :=
       match p_RequestPayloadEncoder params with
       | None => Some JsonEncoder
       | Some enc => Some enc
       end;
     requestPayloadDecoder :=
       match p_RequestPayloadDecoder params with
       | None => Some JsonDecoder
       | Some dec => Some dec
       end;
     contextRequestId := p_ContextRequestId params;
     headerKeyRequestID := p_HeaderKeyRequestID params;
     debugMode := p_DebugMode params |}.

(** [c.headers = headers] *)
Definition withHeaders (c : HttpClient) (hs : list (string * string)) : HttpClient :=
  {| baseUrl := baseUrl c;
     errorHandler := errorHandler c;
     isError := isError c;
     headers := hs;
     httpClient2 := httpClient2 c;
     requestPayloadEncoder := requestPayloadEncoder c;
     requestPayloadDecoder := requestPayloadDecoder c;
     contextRequestId := contextRequestId c;
     headerKeyRequestID := headerKeyRequestID c;
     debugMode := debugMode c |}.

Definition SetHeaders (hs : list (string * string)) : M unit :=
  c ← receiver;
  assign (withHeaders c hs).

(** The receiver is passed by value and only [opt] is written. *)
Definition setDefaultOptions (c : HttpClient) (opt : RequestOptions) : RequestOptions :=
  {| Ctx := match Ctx opt with None => Some context_Background | Some ctx => Some ctx end;
     Method := if decide (Method opt = "") then "GET" else Method opt;
     Url := Url opt;
     Headers := Headers opt;
     Payload := Payload opt;
     Result := Result opt;
     RequestPayloadEncoder :=
       match RequestPayloadEncoder opt with
       | None => requestPayloadEncoder c
       | Some enc => Some enc
       end;
     RequestPayloadDecoder :=
       match RequestPayloadDecoder opt with
       | None => requestPayloadDecoder c
       | Some dec => Some dec
       end;
     UrlParams := UrlParams opt;
     AfterCallback := AfterCallback opt |}.

(** [u, ok := ctx.Value(c.contextRequestId).(string)] *)
Definition fromContextRequestId (c : HttpClient) (ctx : Context) : string * bool :=
  match ctx_Value ctx (VString (contextRequestId c)) with
  | Some (VString u) => (u, true)
  | _ => ("", false)
  end.

Definition defaultIsError (c : HttpClient) (resp : Response) : bool :=
  (StatusCode resp <? http_StatusOK)%Z || (StatusCode resp >=? http_StatusBadRequest)%Z.

Definition defaultErrorHandler (reader : Reader) : M (option GoError) :=
  c ← receiver;
  match errorHandler c with
  | Some handler => mret (handler reader)
  | None =>
      decoder ← nonNil (requestPayloadDecoder c);
      let '(err, e) := decodeErr decoder reader (NewErr 0 "" None) in
      match err with
      | Some err => panic (PanicError err)
      | None => mret (Some (ErrValue e))
      end
  end.

(** [http.NewRequestWithContext], before any header is set. *)
Definition http_NewRequestWithContext (ctx : option Context) (method url : string)
    (body : option Reader) : Request + GoError :=
  match ctx with
  | None => inr (ErrorString "net/http: nil Context")
  | Some ctx =>
      match newRequest_check pf method url with
      | Some err => inr err
      | None =>
          inl {| reqCtx := ctx; reqMethod := method;
                 reqURL := {| parsedFrom := url; RawQuery := None |};
                 Header := ∅; reqBody := body |}
      end
  end.

(** [req.URL.RawQuery = q]: the query of the URL of the request is
    overwritten. *)
Definition withQuery (req : Request) (q : string) : Request :=
  {| reqCtx := reqCtx req; reqMethod := reqMethod req;
     reqURL := {| parsedFrom := parsedFrom (reqURL req); RawQuery := Some q |};
     Header := Header req; reqBody := reqBody req |}.

Definition withHeader (req : Request) (h : gmap string (list string)) : Request :=
  {| reqCtx := reqCtx req; reqMethod := reqMethod req; reqURL := reqURL req;
     Header := h; reqBody := reqBody req |}.

Definition withBody (req : Request) (b : option Reader) : Request :=
  {| reqCtx := reqCtx req; reqMethod := reqMethod req; reqURL := reqURL req;
     Header := Header req; reqBody := b |}.

(** Lines 240 to 251: the headers of the request. *)
Definition requestHeaders (c : HttpClient) (options : RequestOptions)
  : gmap string (list string) :=
  let h := Header_Set "Accept" "application/json; charset=utf-8" ∅ in
  let h :=
    match Ctx options with
    | Some ctx =>
        let '(requestID, has) := fromContextRequestId c ctx in
        if has then Header_Set (headerKeyRequestID c) requestID h else h
    | None => h
    end in
  let h := setAll (headers c) h in
  setAll (Headers options) h.

(** The diagnostics added to a failure in debug mode. *)
Definition debugWrap (c : HttpClient) (curl : string) (err : option GoError)
  : option GoError :=
  if debugMode c then
    let err := Some (wrapErr_Wrap (fmt_Errorf ("curl: " +:+ curl)) err) in
    Some (wrapErr_Wrap (fmt_Errorf (time_took pf)) err)
  else err.

Definition failure (options : RequestOptions) (err : option GoError) : Reply :=
  {| reply_resp := None; reply_err := err; reply_result := Result options |}.

(** Lines 269 to 296: what [DoRequestWithOptions] does
    once the transport has answered with [resp].  [options] has its
    defaults set, [reqBuffer] holds the copy of the body made for the
    callback.  The callback holds the pointer to the response, so the rest
    of the function works on the response as the callback leaves it.  On
    the error path the two debug diagnostics are assigned to a variable
    that the next statement overwrites, so they do not show in the
    result. *)
Definition DoRequestWithOptions_received (options : RequestOptions)
    (req : Request) (reqBuffer curl : string) (resp : Response) : M Reply :=
  c ← receiver;
  resp ←
    match AfterCallback options with
    | Some callback =>
        let req := withBody req (Some (bytes_NewBuffer reqBuffer)) in
        _ ← emit (EvAfterCallback req resp);
        mret (callback req resp)
    | None => mret resp
    end;
  if defaultIsError c resp then
    handled ← defaultErrorHandler (Body resp);
    mret (failure options
            (Some (wrapErr_Wrap
                     (fmt_Errorf ("http status code=" +:+ pretty (StatusCode resp) +:+ " curl"))
                     handled)))
  else
    match Result options with
    | Some target =>
        decoder ← nonNil (RequestPayloadDecoder options);
        let '(err, target) := decodeResult decoder (Body resp) target in
        match err with
        | Some err =>
            mret {| reply_resp := None;
                    reply_err :=
                      Some (wrapErr_Wrap (fmt_Errorf "decode resp.Body")
                              (debugWrap c curl (Some err)));
                    reply_result := Some target |}
        | None =>
            mret {| reply_resp := Some resp; reply_err := None;
                    reply_result := Some target |}
        end
    | None =>
        mret {| reply_resp := Some resp; reply_err := None; reply_result := None |}
    end.

(** Lines 205 to 268, followed by the part above. *)
Definition DoRequestWithOptions (options : RequestOptions) : M Reply :=
  c ← receiver;
  let options := setDefaultOptions c options in
  encoder ← nonNil (RequestPayloadEncoder options);
  let '(payloadReader, err) := encoder (Payload options) in
  match err with
  | Some err =>
      mret (failure options
              (Some (wrapErr_Wrap (fmt_Errorf "requestPayloadEncoder") (Some err))))
  | None =>
  (* with a callback, the body is read through a tee into two buffers *)
  '(reqBuffer, copyErr, payloadReader) ←
    match AfterCallback options with
    | Some _ =>
        src ← nonNil payloadReader;
        mret (content src, readErr src, Some (bytes_NewBuffer (content src)))
    | None => mret ("", None, payloadReader)
    end;
  match copyErr with
  | Some err => mret (failure options (Some err))
  | None =>
  match http_NewRequestWithContext (Ctx options) (Method options)
          (baseUrl c +:+ Url options) payloadReader with
  | inr err =>
      mret (failure options
              (Some (wrapErr_Wrap (fmt_Errorf "new request with context") (Some err))))
  | inl req =>
  let req := withQuery req (query_Encode pf (parsedFrom (reqURL req)) (UrlParams options)) in
  let req := withHeader req (requestHeaders c options) in
  let curl := if debugMode c then http2curl_GetCurlCommand pf req else "" in
  let answer := http_Do pf (httpClient2 c) req in
  _ ← emit (EvDo req answer);
  match answer with
  | inr err =>
      mret (failure options
              (Some (wrapErr_Wrap (fmt_Errorf "do http request")
                       (debugWrap c curl (Some err)))))
  | inl resp => DoRequestWithOptions_received options req reqBuffer curl resp
  end end end end.

Definition DoRequest (ctx : option Context) (method url : string)
    (hs : list (string * string)) (payload result : option GoIface) : M Reply :=
  DoRequestWithOptions
    {| Ctx := ctx; Method := method; Url := url; Headers := hs;
       Payload := payload; Result := result;
       RequestPayloadEncoder := None; RequestPayloadDecoder := None;
       UrlParams := []; AfterCallback := None |}.

Definition PostRequest (ctx : option Context) (url : string)
    (hs : list (string * string)) (payload result : option GoIface) : M Reply :=
  DoRequest ctx "POST" url hs payload result.

Definition GetRequest (ctx : option Context) (url : string)
    (hs : list (string * string)) (result : option GoIface) : M Reply :=
  DoRequest ctx "GET" url hs None result.

End Client.

(** ** The operations a holder of the client can perform *)

Inductive Call :=
| CallSetHeaders (hs : list (string * string))
| CallDoRequestWithOptions (options : RequestOptions)
| CallDoRequest (ctx : option Context) (method url : string)
    (hs : list (string * string)) (payload result : option GoIface)
| CallPostRequest (ctx : option Context) (url : string)
    (hs : list (string * string)) (payload result : option GoIface)
| CallGetRequest (ctx : option Context) (url : string)
    (hs : list (string * string)) (result : option GoIface).

(** The client after the call. *)
Definition clientAfter (pf : Platform) (call : Call) (c : HttpClient) : HttpClient :=
  match call with
  | CallSetHeaders hs => after (SetHeaders hs c)
  | CallDoRequestWithOptions options => after (DoRequestWithOptions pf options c)
  | CallDoRequest ctx method url hs payload result =>
      after (DoRequest pf ctx method url hs payload result c)
  | CallPostRequest ctx url hs payload result =>
      after (PostRequest pf ctx url hs payload result c)
  | CallGetRequest ctx url hs result => after (GetRequest pf ctx url hs result c)
  end.

(** The response on which a finished run made its classification: the
    answer of the transport, as the callback (when there is one) left
    it. *)
Definition classifiedResponse (options : RequestOptions) (r : Run Reply)
    (resp' : Response) : Prop :=
  ∃ req resp,
    EvDo req (inl resp) ∈ trace r ∧
    match AfterCallback options with
    | Some callback => ∃ req', EvAfterCallback req' resp ∈ trace r ∧ resp' = callback req' resp
    | None => resp' = resp
    end.

(** The response the rest of the function works on. *)
Definition leftByCallback (options : RequestOptions) (req : Request)
    (reqBuffer : string) (resp : Response) : Response :=
  match AfterCallback options with
  | Some callback => callback (withBody req (Some (bytes_NewBuffer reqBuffer))) resp
  | None => resp
  end.

(** [c.isError = f], for stating what the executor does with the field. *)
Definition withIsError (c : HttpClient) (f : option (Response → bool)) : HttpClient :=
  {| baseUrl := baseUrl c;
     errorHandler := errorHandler c;
     isError := f;
     headers := headers c;
     httpClient2 := httpClient2 c;
     requestPayloadEncoder := requestPayloadEncoder c;
     requestPayloadDecoder := requestPayloadDecoder c;
     contextRequestId := contextRequestId c;
     headerKeyRequestID := headerKeyRequestID c;
     debugMode := debugMode c |}.

(** The calls of the after-callback in a trace. *)
Definition callbackCalls (evs : list Event) : list (Request * Response) :=
  omap (λ ev, match ev with EvAfterCallback req resp => Some (req, resp) | _ => None end) evs.

(** ** The request handed to the transport *)

(** The body of the request: with a callback, the reader returned by the
    encoder has been read to its end through the tee and the request
    carries a buffer with the bytes read (lines 213 to 222). *)
Definition sentBody (options : RequestOptions) (payloadReader : option Reader)
  : option Reader :=
  match AfterCallback options with
  | Some _ => (λ src, bytes_NewBuffer (content src)) <$> payloadReader
  | None => payloadReader
  end.

(** The bytes kept in [reqBuffer] for the callback. *)
Definition copiedBody (options : RequestOptions) (payloadReader : option Reader)
  : string :=
  match AfterCallback options, payloadReader with
  | Some _, Some src => content src
  | _, _ => ""
  end.

(** The request as lines 223 to 251 build it from the options (with their
    defaults set) and the body. *)
Definition requestOf (pf : Platform) (c : HttpClient) (options : RequestOptions)
    (body : option Reader) : Request :=
  {| reqCtx := default context_Background (Ctx options);
     reqMethod := Method options;
     reqURL :=
       {| parsedFrom := baseUrl c +:+ Url options;
          RawQuery :=
            Some (query_Encode pf (baseUrl c +:+ Url options) (UrlParams options)) |};
     Header := requestHeaders c options;
     reqBody := body |}.

(** The round trips in a trace. *)
Definition roundTrips (evs : list Event) : list (Request * (Response + GoError)) :=
  omap (λ ev, match ev with EvDo req answer => Some (req, answer) | _ => None end) evs.

(** The response as the callback of the call, when there is one, leaves
    it after having been handed the request [req]. *)
Definition observedBy (options : RequestOptions) (req : Request) (resp : Response)
  : Response :=
  match AfterCallback options with
  | Some callback => callback req resp
  | None => resp
  end.

(** A reply carries either a response or an error. *)
Definition wellFormedReply (reply : Reply) : Prop :=
  (reply_resp reply = None ∧ is_Some (reply_err reply)) ∨
  (is_Some (reply_resp reply) ∧ reply_err reply = None).

(** ** A test server *)

Module Scenario.

Definition dq : string := String (ascii_of_N 34) EmptyString.

(** The body of the error test: an object with code 2 and message 222. *)
Definition errorBody : string :=
  "{" +:+ dq +:+ "code" +:+ dq +:+ ":2," +:+ dq +:+ "message" +:+ dq +:+ ":"
  +:+ dq +:+ "222" +:+ dq +:+ "}".

(** The JSON decoder of the library on the bodies used below: the error
    body, the empty object (which leaves the target as it is) and the
    empty input (a failure).  Other bodies are reported as failures. *)
Definition jsonLib : LibDecoder :=
  {| lib_decodeErr reader e :=
       if decide (content reader = errorBody) then (None, NewErr 2 "222" None)
       else if decide (content reader = "{}") then (None, e)
       else if decide (content reader = "") then (Some "EOF", e)
       else (Some "invalid character", e);
     lib_decodeResult reader v :=
       if decide (content reader = "{}") then (None, v)
       else if decide (content reader = "") then (Some "EOF", v)
       else (Some "invalid character", v) |}.

(** The gob decoder of the library on the same bodies: none of them is a
    gob stream. *)
Definition gobLib : LibDecoder :=
  {| lib_decodeErr reader e :=
       if decide (content reader = "") then (Some "EOF", e)
       else (Some "unexpected EOF", e);
     lib_decodeResult reader v :=
       if decide (content reader = "") then (Some "EOF", v)
       else (Some "unexpected EOF", v) |}.

(** The query encoder of the library on the URLs used below: a URL with
    the query [b=2&a=1] and no parameter is encoded with its keys sorted;
    the other URLs used have no query and no parameter, and give the empty
    string. *)
Definition knownQueries (url : string) (params : list (string * string)) : string :=
  if decide (url = "http://127.0.0.1:8080/qwe?b=2&a=1" ∧ params = []) then "a=1&b=2"
  else "".

(** A platform whose transport answers every request with [resp]. *)
Definition answering (resp : Response) : Platform :=
  {| json_Decode := jsonLib;
     gob_Decode := gobLib;
     newRequest_check _ _ := None;
     query_Encode := knownQueries;
     http2curl_GetCurlCommand req :=
       "curl -X '" +:+ reqMethod req +:+ "' '" +:+ parsedFrom (reqURL req) +:+ "'";
     time_took := "request took 1.000000 microseconds";
     http_Do _ _ := inl resp |}.

Definition response (status : Z) (body : string) : Response :=
  {| StatusCode := status; respHeader := ∅; Body := bytes_NewBuffer body |}.

Definition someError : GoError := ErrorString "some error".

Definition paramsWith (handler : option (Reader → option GoError))
    (classifier : option (Response → bool)) (hs : list (string * string))
  : HttpClientParams :=
  {| p_BaseUrl := "http://127.0.0.1:8080";
     p_ErrorHandler := handler;
     p_IsError := classifier;
     p_Headers := hs;
     p_Timeout := 1000000000;
     p_RequestPayloadEncoder := None;
     p_RequestPayloadDecoder := None;
     p_MaxIdleConnsPerHost := 0;
     p_ContextRequestId := "0";
     p_HeaderKeyRequestID := "X-Request-Id";
     p_DebugMode := false |}.

Definition params : HttpClientParams :=
  {| p_BaseUrl := "http://127.0.0.1:8080";
     p_ErrorHandler := None;
     p_IsError := None;
     p_Headers := [];
     p_Timeout := 1000000000;
     p_RequestPayloadEncoder := None;
     p_RequestPayloadDecoder := None;
     p_MaxIdleConnsPerHost := 0;
     p_ContextRequestId := "0";
     p_HeaderKeyRequestID := "X-Request-Id";
     p_DebugMode := false |}.

Definition get (url : string) : RequestOptions :=
  {| Ctx := Some context_Background; Method := "GET"; Url := url; Headers := [];
     Payload := None; Result := None;
     RequestPayloadEncoder := None; RequestPayloadDecoder := None;
     UrlParams := []; AfterCallback := None |}.

(** A call with everything that the properties below vary. *)
Definition request (ctx : Context) (hs : list (string * string))
    (decoder : option DataDecoder)
    (callback : option (Request → Response → Response)) : RequestOptions :=
  {| Ctx := Some ctx; Method := "POST"; Url := "/qwe"; Headers := hs;
     Payload := None; Result := None;
     RequestPayloadEncoder := None; RequestPayloadDecoder := decoder;
     UrlParams := []; AfterCallback := callback |}.

(** The same call made with the gob codec. *)
Definition gobRequest (pf : Platform) (ctx : Context) (hs : list (string * string))
  : RequestOptions :=
  {| Ctx := Some ctx; Method := "POST"; Url := "/qwe2"; Headers := hs;
     Payload := None; Result := None;
     RequestPayloadEncoder := Some GobEncoder;
     RequestPayloadDecoder := Some (GobDecoder pf);
     UrlParams := []; AfterCallback := None |}.

(** A context that carries [v] under the key of the request id. *)
Definition carrying (v : GoVal) : Context := [(VString "0", v)].

(** A callback that looks at the exchange and leaves the response as it
    is. *)
Definition observe : Request → Response → Response := λ _ resp, resp.

(** A platform whose transport fails every round trip with [err]. *)
Definition refusing (err : GoError) : Platform :=
  {| json_Decode := jsonLib;
     gob_Decode := gobLib;
     newRequest_check _ _ := None;
     query_Encode _ _ := "";
     http2curl_GetCurlCommand req :=
       "curl -X '" +:+ reqMethod req +:+ "' '" +:+ parsedFrom (reqURL req) +:+ "'";
     time_took := "request took 1.000000 microseconds";
     http_Do _ _ := inr err |}.

(** A platform on which no request can be built. *)
Definition rejecting (err : GoError) : Platform :=
  {| json_Decode := jsonLib;
     gob_Decode := gobLib;
     newRequest_check _ _ := Some err;
     query_Encode _ _ := "";
     http2curl_GetCurlCommand req := "";
     time_took := "";
     http_Do _ _ := inr err |}.

(** A value that neither codec can serialise, and one that both can. *)
Definition channel : GoIface :=
  {| json_of := MarshalError "json: unsupported type: chan int";
     gob_of := MarshalError "gob: type not registered for interface: chan int" |}.

Definition text1 : GoIface :=
  {| json_of := Bytes "{}"; gob_of := Bytes "gob:text1" |}.

(** An encoder whose stream breaks while it is read. *)
Definition brokenStream : DataEncoder := λ _,
  (Some {| content := "{"; readErr := Some (ErrorString "unexpected EOF") |}, None).

(** A call that leaves the method and the context to their defaults. *)
Definition bare (url : string) : RequestOptions :=
  {| Ctx := None; Method := ""; Url := url; Headers := [];
     Payload := None; Result := None;
     RequestPayloadEncoder := None; RequestPayloadDecoder := None;
     UrlParams := []; AfterCallback := None |}.

(** A call with a payload, a result target, an encoder and a callback. *)
Definition post (payload result : option GoIface) (encoder : option DataEncoder)
    (decoder : option DataDecoder)
    (callback : option (Request → Response → Response)) : RequestOptions :=
  {| Ctx := None; Method := ""; Url := "/qwe"; Headers := [];
     Payload := payload; Result := result;
     RequestPayloadEncoder := encoder; RequestPayloadDecoder := decoder;
     UrlParams := []; AfterCallback := callback |}.

(** The client of the tests: a custom error handler and debug mode. *)
Definition debugging (handler : Reader → option GoError) : HttpClientParams :=
  {| p_BaseUrl := "http://127.0.0.1:8080";
     p_ErrorHandler := Some handler;
     p_IsError := None;
     p_Headers := [];
     p_Timeout := 1000000000;
     p_RequestPayloadEncoder := None;
     p_RequestPayloadDecoder := None;
     p_MaxIdleConnsPerHost := 0;
     p_ContextRequestId := "0";
     p_HeaderKeyRequestID := "X-Request-Id";
     p_DebugMode := true |}.

(** A callback that rewrites the status code of the response it is
    handed. *)
Definition relabel (status : Z) : Request → Response → Response := λ _ resp,
  {| StatusCode := status; respHeader := respHeader resp; Body := Body resp |}.

End Scenario.

(** * Properties *)

(** ** Reading a run *)

Ltac run_step :=
  match goal with
  | |- context [match ?x with _ => _ end] =>
      lazymatch x with
      | context [match _ with _ => _ end] => fail
      | _ => destruct x eqn:?
      end
  | H : context [match ?x with _ => _ end] |- _ =>
      lazymatch x with
      | context [match _ with _ => _ end] => fail
      | _ => destruct x eqn:?
      end
  end.

Ltac run_unfold :=
  unfold DoRequestWithOptions, DoRequestWithOptions_received, defaultErrorHandler,
    SetHeaders, nonNil, receiver, assign, emit, panic, failure,
    mbind, M_bind, mret, M_ret in *; cbn [outcome after trace] in *.

Ltac prelude_unfold :=
  unfold DoRequestWithOptions, http_NewRequestWithContext, nonNil, receiver, emit, panic,
    failure, mbind, M_bind, mret, M_ret;
  cbv zeta; cbn [outcome after trace].

Section Runs.

Context (pf : Platform).

(** No branch of the executor assigns to the receiver. *)
Lemma DoRequestWithOptions_received_after options req reqBuffer curl resp c :
  after (DoRequestWithOptions_received pf options req reqBuffer curl resp c) = c.
Proof.
  run_unfold. repeat (run_step; cbn [outcome after trace] in * ); reflexivity.
Qed.

Lemma DoRequestWithOptions_after options c :
  after (DoRequestWithOptions pf options c) = c.
Proof.
  pose proof (DoRequestWithOptions_received_after) as Hrec.
  unfold DoRequestWithOptions, nonNil, receiver, emit, panic, failure,
    mbind, M_bind, mret, M_ret; cbn [outcome after trace].
  repeat (run_step; cbn [outcome after trace] in * ); try reflexivity; apply Hrec.
Qed.

(** The after-callback is the only collaborator called once the
    transport has answered, and it is called whatever the status is. *)
Lemma DoRequestWithOptions_received_trace options req reqBuffer curl resp c :
  trace (DoRequestWithOptions_received pf options req reqBuffer curl resp c) =
  match AfterCallback options with
  | Some _ => [EvAfterCallback (withBody req (Some (bytes_NewBuffer reqBuffer))) resp]
  | None => []
  end.
Proof.
  run_unfold. repeat (run_step; cbn [outcome after trace] in * ); reflexivity.
Qed.

(** The error path of the executor when no handler is configured: the
    body is decoded by the decoder of the client. *)
Lemma DoRequestWithOptions_received_error options req reqBuffer curl resp c dec :
  let resp' := leftByCallback options req reqBuffer resp in
  defaultIsError c resp' = true →
  errorHandler c = None →
  requestPayloadDecoder c = Some dec →
  outcome (DoRequestWithOptions_received pf options req reqBuffer curl resp c) =
  match decodeErr dec (Body resp') (NewErr 0 "" None) with
  | (Some err, _) => Panic (PanicError err)
  | (None, e) =>
      Return (failure options
                (Some (wrapErr_Wrap
                         (fmt_Errorf ("http status code=" +:+ pretty (StatusCode resp')
                                      +:+ " curl"))
                         (Some (ErrValue e)))))
  end.
Proof.
  unfold leftByCallback. intros Hcls Hh Hd. run_unfold.
  destruct (AfterCallback options); cbn [outcome after trace] in *;
    rewrite Hcls, Hh, Hd; cbn [outcome after trace];
    destruct (decodeErr dec _ _) as [[err|] e]; reflexivity.
Qed.

(** The shape of a run: either no round trip is made, or exactly one is
    made, with the headers of [requestHeaders], and an answered run goes
    on with [DoRequestWithOptions_received]. *)
Lemma DoRequestWithOptions_cases options c :
  let r := DoRequestWithOptions pf options c in
  trace r = [] ∨
  ∃ req reqBuffer curl,
    Header req = requestHeaders c (setDefaultOptions c options) ∧
    match http_Do pf (httpClient2 c) req with
    | inl resp =>
        let r' := DoRequestWithOptions_received pf (setDefaultOptions c options)
                    req reqBuffer curl resp c in
        outcome r = outcome r' ∧ trace r = EvDo req (inl resp) :: trace r'
    | inr err => trace r = [EvDo req (inr err)]
    end.
Proof.
  unfold DoRequestWithOptions, http_NewRequestWithContext, nonNil, receiver, emit, panic,
    failure, mbind, M_bind, mret, M_ret.
  cbn [outcome after trace].
  repeat (run_step; cbn [outcome after trace] in * ); try (left; reflexivity);
    right;
    match goal with
    | H : http_Do _ _ ?rq = inr _ |- _ =>
        exists rq, "", ""; rewrite H; split; reflexivity
    | H : http_Do _ _ ?rq = inl _ |- _ =>
        exists rq; eexists _, _; rewrite H; cbv zeta; repeat split; reflexivity
    end.
Qed.

Lemma DoRequestWithOptions_sent options c req answer :
  EvDo req answer ∈ trace (DoRequestWithOptions pf options c) →
  Header req = requestHeaders c (setDefaultOptions c options) ∧
  answer = http_Do pf (httpClient2 c) req ∧
  ∃ reqBuffer curl,
    match answer with
    | inl resp =>
        let r' := DoRequestWithOptions_received pf (setDefaultOptions c options)
                    req reqBuffer curl resp c in
        outcome (DoRequestWithOptions pf options c) = outcome r' ∧
        trace (DoRequestWithOptions pf options c) = EvDo req answer :: trace r'
    | inr _ => trace (DoRequestWithOptions pf options c) = [EvDo req answer]
    end.
Proof.
  intros Hin.
  destruct (DoRequestWithOptions_cases options c) as [Hnil|(rq & buf & curl & Hh & Hrun)].
  { rewrite Hnil in Hin. by apply elem_of_nil in Hin. }
  destruct (http_Do pf (httpClient2 c) rq) as [resp|err] eqn:Hdo.
  - destruct Hrun as [Hout Htr]. rewrite Htr in Hin.
    apply elem_of_cons in Hin as [Heq|Hin].
    + simplify_eq. rewrite Hdo. split; [done|]. split; [done|]. by exists buf, curl.
    + rewrite DoRequestWithOptions_received_trace in Hin.
      destruct (AfterCallback _);
        [by apply list_elem_of_singleton in Hin | by apply elem_of_nil in Hin].
  - rewrite Hrun in Hin. apply list_elem_of_singleton in Hin. simplify_eq.
    rewrite Hdo. split; [done|]. split; [done|]. by exists buf, curl.
Qed.

End Runs.

(** ** Error values *)

(** C9. For all [Err] values built by [NewErr], [e1.Is(e2)] holds if and
    only if the code of [e1] equals the code of [e2], whatever the
    messages and the metadata are. *)
Theorem Err_Is_iff_same_code (code1 code2 : Z) (message1 message2 : string)
    (meta1 meta2 : option GoIface) :
  Err_Is (NewErr code1 message1 meta1) (ErrValue (NewErr code2 message2 meta2)) = true
  ↔ code1 = code2.
Proof. cbn [Err_Is NewErr Code]. apply bool_decide_eq_true. Qed.

(** A target that is not an [Err] held by value is never equivalent. *)
Lemma Err_Is_other_type e target :
  (∀ e2, target ≠ ErrValue e2) → Err_Is e target = false.
Proof. destruct target; intros H; try reflexivity. by destruct (H e0). Qed.

(** ** The default classifier *)

(** C7. The default classifier answers "error" exactly for a status code
    below 200 or at least 400, and "success" exactly for a status code
    from 200 to 399; so every status below 200 is an error. *)
Theorem defaultIsError_status_range (c : HttpClient) (resp : Response) :
  (defaultIsError c resp = true ↔ (StatusCode resp < 200 ∨ 400 ≤ StatusCode resp)%Z) ∧
  (defaultIsError c resp = false ↔ (200 ≤ StatusCode resp ≤ 399)%Z).
Proof.
  unfold defaultIsError, http_StatusOK, http_StatusBadRequest.
  destruct (Z.ltb_spec (StatusCode resp) 200), (Z.geb_spec (StatusCode resp) 400);
    cbn; split; split; intros; try done; lia.
Qed.

(** ** Encoders *)

(** C4. Evaluation of the two encoders on the nil payload: [GobEncoder]
    returns no stream and no error, [JsonEncoder] returns no error and a
    stream of the four bytes [null]; a [GetRequest] of a client with the
    default encoder sends these four bytes as its body. *)
Theorem encoders_nil_payload :
  GobEncoder None = (None, None) ∧
  JsonEncoder None = (Some {| content := "null"; readErr := None |}, None) ∧
  let pf := Scenario.answering (Scenario.response 200 "{}") in
  ∃ req answer,
    trace (GetRequest pf (Some context_Background) "/qwe" [] None
             (NewHttpClient pf Scenario.params)) = [EvDo req answer] ∧
    reqBody req = Some {| content := "null"; readErr := None |}.
Proof.
  split; [reflexivity|]. split; [reflexivity|].
  eexists _, _. split; reflexivity.
Qed.

(** ** The configuration *)

(** C5, as the claim states it, fails: [SetHeaders] replaces the default
    headers of a constructed client. *)
Lemma SetHeaders_changes_configuration :
  let pf := Scenario.answering (Scenario.response 200 "{}") in
  let c := NewHttpClient pf Scenario.params in
  let c' := clientAfter pf (CallSetHeaders [("Authorization", "Bearer t")]) c in
  headers c = [] ∧ headers c' = [("Authorization", "Bearer t")] ∧ c' ≠ c.
Proof.
  cbv zeta. split; [reflexivity|]. split; [reflexivity|].
  intros H. apply (f_equal headers) in H. discriminate H.
Qed.

(** C5, amended. Every field of the configuration other than the default
    headers is the same after any operation on the client; the default
    headers are replaced by [SetHeaders] and by no other operation. *)
Theorem configuration_fixed_but_headers (pf : Platform) (call : Call) (c : HttpClient) :
  let c' := clientAfter pf call c in
  baseUrl c' = baseUrl c ∧
  errorHandler c' = errorHandler c ∧
  isError c' = isError c ∧
  httpClient2 c' = httpClient2 c ∧
  requestPayloadEncoder c' = requestPayloadEncoder c ∧
  requestPayloadDecoder c' = requestPayloadDecoder c ∧
  contextRequestId c' = contextRequestId c ∧
  headerKeyRequestID c' = headerKeyRequestID c ∧
  debugMode c' = debugMode c ∧
  headers c' = match call with CallSetHeaders hs => hs | _ => headers c end.
Proof.
  destruct call; cbn [clientAfter];
    unfold GetRequest, PostRequest, DoRequest;
    rewrite ?DoRequestWithOptions_after; repeat split; reflexivity.
Qed.

(** ** The classifier *)

(** The executor never reads the field [isError]: a run is the same
    whatever classifier the client was given. *)
Lemma received_isError_not_read (pf : Platform) options req reqBuffer curl resp c f :
  outcome (DoRequestWithOptions_received pf options req reqBuffer curl resp
             (withIsError c f)) =
    outcome (DoRequestWithOptions_received pf options req reqBuffer curl resp c) ∧
  trace (DoRequestWithOptions_received pf options req reqBuffer curl resp
           (withIsError c f)) =
    trace (DoRequestWithOptions_received pf options req reqBuffer curl resp c).
Proof.
  run_unfold. unfold debugWrap, defaultIsError, withIsError.
  cbn [errorHandler requestPayloadDecoder debugMode outcome after trace].
  repeat (run_step;
          cbn [errorHandler requestPayloadDecoder debugMode outcome after trace] in * ).
  all: split; reflexivity.
Qed.

Lemma isError_not_read (pf : Platform) (options : RequestOptions) (c : HttpClient)
    (f : option (Response → bool)) :
  outcome (DoRequestWithOptions pf options (withIsError c f)) =
    outcome (DoRequestWithOptions pf options c) ∧
  trace (DoRequestWithOptions pf options (withIsError c f)) =
    trace (DoRequestWithOptions pf options c).
Proof.
  pose proof (received_isError_not_read pf) as Hrec.
  unfold DoRequestWithOptions, nonNil, receiver, emit, panic, failure,
    mbind, M_bind, mret, M_ret; cbn [outcome after trace].
  change (setDefaultOptions (withIsError c f) options) with (setDefaultOptions c options).
  change (requestHeaders (withIsError c f)) with (requestHeaders c).
  change (debugWrap pf (withIsError c f)) with (debugWrap pf c).
  cbn [withIsError baseUrl debugMode httpClient2].
  repeat (run_step; cbn [outcome after trace] in * ).
  all: try (split; reflexivity).
  all: match goal with
       | |- outcome (DoRequestWithOptions_received _ ?o ?rq ?b ?cu ?rs _) = _ ∧ _ =>
           destruct (Hrec o rq b cu rs c f) as [-> ->]; split; reflexivity
       end.
Qed.

(** C1. Evaluation of the executor with a custom classifier: a client
    whose classifier accepts every response still fails on status 404, and
    a client whose classifier rejects every response still succeeds on
    status 200. *)
Theorem custom_classifier_not_consulted :
  (let pf := Scenario.answering (Scenario.response 404 "{}") in
   let c := NewHttpClient pf
              (Scenario.paramsWith (Some (λ _, Some Scenario.someError))
                 (Some (λ _, false)) []) in
   isError c = Some (λ _, false) ∧
   outcome (DoRequestWithOptions pf (Scenario.get "/qwe") c) =
   Return {| reply_resp := None;
             reply_err := Some (WrapErr (ErrorString "http status code=404 curl")
                                  (Some Scenario.someError));
             reply_result := None |}) ∧
  (let pf := Scenario.answering (Scenario.response 200 "{}") in
   let c := NewHttpClient pf (Scenario.paramsWith None (Some (λ _, true)) []) in
   isError c = Some (λ _, true) ∧
   outcome (DoRequestWithOptions pf (Scenario.get "/qwe") c) =
   Return {| reply_resp := Some (Scenario.response 200 "{}");
             reply_err := None;
             reply_result := None |}).
Proof. repeat split; vm_compute; reflexivity. Qed.

(** ** The error path *)

(** A run that classified a response went through
    [DoRequestWithOptions_received] with it. *)
Lemma classifiedResponse_received (pf : Platform) options c resp' :
  classifiedResponse options (DoRequestWithOptions pf options c) resp' →
  ∃ req reqBuffer curl resp,
    resp' = leftByCallback (setDefaultOptions c options) req reqBuffer resp ∧
    outcome (DoRequestWithOptions pf options c) =
    outcome (DoRequestWithOptions_received pf (setDefaultOptions c options)
               req reqBuffer curl resp c).
Proof.
  intros (req & resp & Hin & Hcb).
  destruct (DoRequestWithOptions_sent pf options c req (inl resp) Hin)
    as (_ & _ & buf & curl & Hout & Htr).
  exists req, buf, curl, resp. split; [|done].
  rewrite DoRequestWithOptions_received_trace in Htr.
  unfold leftByCallback. cbn [setDefaultOptions AfterCallback] in *.
  destruct (AfterCallback options) as [callback|]; [|done].
  destruct Hcb as (req' & Hin' & ->). rewrite Htr in Hin'.
  apply elem_of_cons in Hin' as [?|Hin']; [done|].
  apply list_elem_of_singleton in Hin'. by simplify_eq.
Qed.

(** C3, as the claim states it, fails: with the JSON decoder as the
    default of the client and the gob decoder given for the call, the
    resolved decoder is the gob decoder and it rejects the body, yet the
    error returned is the one the JSON decoder reads from the body. *)
Lemma error_body_not_decoded_by_call_decoder :
  let resp := Scenario.response 400 Scenario.errorBody in
  let pf := Scenario.answering resp in
  let c := NewHttpClient pf Scenario.params in
  let options := Scenario.request [] [] (Some (GobDecoder pf)) None in
  RequestPayloadDecoder (setDefaultOptions c options) = Some (GobDecoder pf) ∧
  (decodeErr (GobDecoder pf) (Body resp) (NewErr 0 "" None)).1 =
    Some (ErrorString "gob dec.Decode: unexpected EOF") ∧
  outcome (DoRequestWithOptions pf options c) =
    Return {| reply_resp := None;
              reply_err := Some (WrapErr (ErrorString "http status code=400 curl")
                                   (Some (ErrValue (NewErr 2 "222" None))));
              reply_result := None |}.
Proof. cbv zeta. repeat split; vm_compute; reflexivity. Qed.

(** C3, amended. When the response is classified as an error and the
    client has no error-body handler, the body is decoded into an [Err]
    by the default decoder of the client, whatever decoder is given for
    the call, and the call returns that [Err] wrapped with the status
    code. *)
Theorem error_body_decoded_by_client_decoder (pf : Platform) (c : HttpClient)
    (options : RequestOptions) (resp' : Response) (dec : DataDecoder) (e : Err) :
  classifiedResponse options (DoRequestWithOptions pf options c) resp' →
  defaultIsError c resp' = true →
  errorHandler c = None →
  requestPayloadDecoder c = Some dec →
  decodeErr dec (Body resp') (NewErr 0 "" None) = (None, e) →
  outcome (DoRequestWithOptions pf options c) =
    Return {| reply_resp := None;
              reply_err :=
                Some (WrapErr
                        (ErrorString ("http status code=" +:+ pretty (StatusCode resp')
                                      +:+ " curl"))
                        (Some (ErrValue e)));
              reply_result := Result options |}.
Proof.
  intros Hcls Herr Hh Hd Hdec.
  apply classifiedResponse_received in Hcls as (req & buf & curl & resp & -> & ->).
  rewrite (DoRequestWithOptions_received_error pf _ _ _ _ _ _ dec Herr Hh Hd), Hdec.
  reflexivity.
Qed.

Lemma error_body_decoded_by_client_decoder_witness :
  let resp := Scenario.response 400 Scenario.errorBody in
  let pf := Scenario.answering resp in
  let c := NewHttpClient pf Scenario.params in
  let options := Scenario.request [] [] (Some (GobDecoder pf)) None in
  outcome (DoRequestWithOptions pf options c) =
    Return {| reply_resp := None;
              reply_err :=
                Some (WrapErr
                        (ErrorString ("http status code=" +:+ pretty (StatusCode resp)
                                      +:+ " curl"))
                        (Some (ErrValue (NewErr 2 "222" None))));
              reply_result := Result options |}.
Proof.
  intros resp pf c options.
  apply (error_body_decoded_by_client_decoder pf c options resp (JsonDecoder pf)).
  - eexists _, _. split; [apply list_elem_of_here | reflexivity].
  - reflexivity.
  - reflexivity.
  - reflexivity.
  - vm_compute. reflexivity.
Defined.

(** C6. When the response is classified as an error, the client has no
    error-body handler and the decoding of the body into an [Err] fails,
    the executor panics with the failure of the decoder instead of
    returning it. *)
Theorem error_body_decode_failure_panics (pf : Platform) (c : HttpClient)
    (options : RequestOptions) (resp' : Response) (dec : DataDecoder)
    (err : GoError) (e : Err) :
  classifiedResponse options (DoRequestWithOptions pf options c) resp' →
  defaultIsError c resp' = true →
  errorHandler c = None →
  requestPayloadDecoder c = Some dec →
  decodeErr dec (Body resp') (NewErr 0 "" None) = (Some err, e) →
  outcome (DoRequestWithOptions pf options c) = Panic (PanicError err).
Proof.
  intros Hcls Herr Hh Hd Hdec.
  apply classifiedResponse_received in Hcls as (req & buf & curl & resp & -> & ->).
  rewrite (DoRequestWithOptions_received_error pf _ _ _ _ _ _ dec Herr Hh Hd), Hdec.
  reflexivity.
Qed.

Lemma error_body_decode_failure_panics_witness :
  let resp := Scenario.response 500 "" in
  let pf := Scenario.answering resp in
  let c := NewHttpClient pf Scenario.params in
  outcome (DoRequestWithOptions pf (Scenario.get "/qwe") c) =
    Panic (PanicError (ErrorString "json dec.Decode: EOF")).
Proof.
  intros resp pf c.
  apply (error_body_decode_failure_panics pf c _ resp
           (JsonDecoder pf) _ (NewErr 0 "" None)).
  - eexists _, _. split; [apply list_elem_of_here | reflexivity].
  - reflexivity.
  - reflexivity.
  - reflexivity.
  - vm_compute. reflexivity.
Defined.

(** ** The headers of the request *)

Lemma setAll_cons k v m h : setAll ((k, v) :: m) h = setAll m (Header_Set k v h).
Proof. reflexivity. Qed.

(** A key that no entry of the map canonicalises to keeps its values. *)
Lemma setAll_lookup_other m h k :
  Forall (λ kv, CanonicalMIMEHeaderKey kv.1 ≠ k) m →
  setAll m h !! k = h !! k.
Proof.
  revert h. induction m as [|[k' v] m IH]; intros h Hall; [reflexivity|].
  apply Forall_cons in Hall as [Hk Hm].
  rewrite setAll_cons, IH by done.
  unfold Header_Set. by rewrite lookup_insert_ne.
Qed.

(** The headers of a call after [setDefaultOptions]. *)
Lemma requestHeaders_defaults c options :
  requestHeaders c (setDefaultOptions c options) =
  setAll (Headers options)
    (setAll (headers c)
       (match ctx_Value (default context_Background (Ctx options))
                (VString (contextRequestId c)) with
        | Some (VString requestID) =>
            Header_Set (headerKeyRequestID c) requestID
              (Header_Set "Accept" "application/json; charset=utf-8" ∅)
        | _ => Header_Set "Accept" "application/json; charset=utf-8" ∅
        end)).
Proof.
  unfold requestHeaders, fromContextRequestId.
  cbn [setDefaultOptions Ctx Headers].
  destruct (Ctx options) as [ctx|]; cbn [default];
    by destruct (ctx_Value _ _) as [[]|].
Qed.

(** C8, as the claim states it, fails: a per-call header named [accept]
    replaces the value of the [Accept] header of the outgoing request. *)
Lemma Accept_replaced_by_call_header :
  let pf := Scenario.answering (Scenario.response 200 "{}") in
  let c := NewHttpClient pf Scenario.params in
  let options := Scenario.request [] [("accept", "text/plain")] None None in
  ∃ req answer,
    trace (DoRequestWithOptions pf options c) = [EvDo req answer] ∧
    Header req !! "Accept" = Some ["text/plain"] ∧
    Header_Get "Accept" (Header req) = "text/plain".
Proof.
  cbv zeta. eexists _, _. split; [reflexivity|]. split; vm_compute; reflexivity.
Qed.

(** C8, amended. Whatever codec is configured, every outgoing request
    carries [Accept: application/json; charset=utf-8], provided that no
    key of the default headers of the client and no key of the headers of
    the call canonicalises to [Accept], and that the request-id header,
    when it is set, is not named [Accept]. *)
Theorem Accept_header_when_not_overridden (pf : Platform) (c : HttpClient)
    (options : RequestOptions) (req : Request) (answer : Response + GoError) :
  EvDo req answer ∈ trace (DoRequestWithOptions pf options c) →
  (fromContextRequestId c (default context_Background (Ctx options))).2 = false
    ∨ CanonicalMIMEHeaderKey (headerKeyRequestID c) ≠ "Accept" →
  Forall (λ kv, CanonicalMIMEHeaderKey kv.1 ≠ "Accept") (headers c) →
  Forall (λ kv, CanonicalMIMEHeaderKey kv.1 ≠ "Accept") (Headers options) →
  Header req !! "Accept" = Some ["application/json; charset=utf-8"].
Proof.
  intros Hin Hid Hc Ho.
  destruct (DoRequestWithOptions_sent pf options c req answer Hin) as (-> & _).
  rewrite requestHeaders_defaults, !setAll_lookup_other by done.
  unfold fromContextRequestId in Hid.
  destruct (ctx_Value _ _) as [[requestID| | |]|]; try apply lookup_insert_eq.
  destruct Hid as [Hid|Hid]; [discriminate Hid|].
  unfold Header_Set at 1. rewrite lookup_insert_ne by done. apply lookup_insert_eq.
Qed.

Lemma Accept_header_when_not_overridden_witness :
  let pf := Scenario.answering (Scenario.response 200 "{}") in
  let c := NewHttpClient pf
             (Scenario.paramsWith None None [("Header1", "Value-of-header1")]) in
  let options := Scenario.gobRequest pf (Scenario.carrying (VString "req-123"))
                   [("Header2", "Value-of-header2")] in
  ∃ req answer,
    trace (DoRequestWithOptions pf options c) = [EvDo req answer] ∧
    Header req !! "Accept" = Some ["application/json; charset=utf-8"].
Proof.
  intros pf c options. eexists _, _. split; [reflexivity|].
  eapply (Accept_header_when_not_overridden pf c options).
  - apply list_elem_of_here.
  - right. vm_compute. discriminate.
  - repeat constructor. vm_compute. discriminate.
  - repeat constructor. vm_compute. discriminate.
Defined.

(** C10, as the claim states it, fails: with a default header named
    [x-request-id], the request-id header is set on the outgoing request
    although the context carries a value that is not a string. *)
Lemma request_id_header_set_by_default_header :
  let pf := Scenario.answering (Scenario.response 200 "{}") in
  let c := NewHttpClient pf (Scenario.paramsWith None None [("x-request-id", "fixed")]) in
  let options := Scenario.request (Scenario.carrying (VInt 123)) [] None None in
  CanonicalMIMEHeaderKey (headerKeyRequestID c) = "X-Request-Id" ∧
  ctx_Value (Scenario.carrying (VInt 123)) (VString (contextRequestId c)) = Some (VInt 123) ∧
  ∃ req answer,
    trace (DoRequestWithOptions pf options c) = [EvDo req answer] ∧
    Header req !! "X-Request-Id" = Some ["fixed"].
Proof.
  cbv zeta. split; [vm_compute; reflexivity|]. split; [reflexivity|].
  eexists _, _. split; [reflexivity|]. vm_compute. reflexivity.
Qed.

(** C10, amended. Provided that the configured request-id header name is
    not [Accept] and that no default header and no header of the call has
    the same canonical name, the request-id header is set on the outgoing
    request if and only if the context of the call carries a value of type
    string under the configured key, and it then holds that value; a value
    of another type is ignored and the header is not set. *)
Theorem request_id_header_iff_string (pf : Platform) (c : HttpClient)
    (options : RequestOptions) (req : Request) (answer : Response + GoError) :
  EvDo req answer ∈ trace (DoRequestWithOptions pf options c) →
  CanonicalMIMEHeaderKey (headerKeyRequestID c) ≠ "Accept" →
  Forall (λ kv, CanonicalMIMEHeaderKey kv.1 ≠ CanonicalMIMEHeaderKey (headerKeyRequestID c))
    (headers c) →
  Forall (λ kv, CanonicalMIMEHeaderKey kv.1 ≠ CanonicalMIMEHeaderKey (headerKeyRequestID c))
    (Headers options) →
  (is_Some (Header req !! CanonicalMIMEHeaderKey (headerKeyRequestID c)) ↔
   ∃ requestID,
     ctx_Value (default context_Background (Ctx options))
       (VString (contextRequestId c)) = Some (VString requestID)) ∧
  Header req !! CanonicalMIMEHeaderKey (headerKeyRequestID c) =
  match ctx_Value (default context_Background (Ctx options))
          (VString (contextRequestId c)) with
  | Some (VString requestID) => Some [requestID]
  | _ => None
  end.
Proof.
  intros Hin Hid Hc Ho.
  destruct (DoRequestWithOptions_sent pf options c req answer Hin) as (-> & _).
  rewrite requestHeaders_defaults, !setAll_lookup_other by done.
  destruct (ctx_Value _ _) as [[requestID| | |]|];
    try (unfold Header_Set; rewrite lookup_insert_ne, lookup_empty by done;
         split; [|reflexivity];
         split; [by intros [? ?] | by intros [? ?]]).
  replace (Header_Set (headerKeyRequestID c) requestID _ !! _) with (Some [requestID])
    by (symmetry; apply lookup_insert_eq).
  split; [|reflexivity]. split; [by exists requestID | by eexists].
Qed.

Lemma request_id_header_iff_string_witness :
  let pf := Scenario.answering (Scenario.response 200 "{}") in
  let c := NewHttpClient pf
             (Scenario.paramsWith None None [("Header1", "Value-of-header1")]) in
  (∃ req answer,
     trace (DoRequestWithOptions pf
              (Scenario.request (Scenario.carrying (VString "req-123")) [] None None) c)
       = [EvDo req answer] ∧
     Header req !! "X-Request-Id" = Some ["req-123"]) ∧
  (∃ req answer,
     trace (DoRequestWithOptions pf
              (Scenario.request (Scenario.carrying (VInt 123)) [] None None) c)
       = [EvDo req answer] ∧
     Header req !! "X-Request-Id" = None).
Proof.
  intros pf c. split.
  - eexists _, _. split; [reflexivity|].
    eapply proj2, (request_id_header_iff_string pf c
              (Scenario.request (Scenario.carrying (VString "req-123")) [] None None)).
    + apply list_elem_of_here.
    + vm_compute. discriminate.
    + repeat constructor. vm_compute. discriminate.
    + constructor.
  - eexists _, _. split; [reflexivity|].
    eapply proj2, (request_id_header_iff_string pf c
              (Scenario.request (Scenario.carrying (VInt 123)) [] None None)).
    + apply list_elem_of_here.
    + vm_compute. discriminate.
    + repeat constructor. vm_compute. discriminate.
    + constructor.
Defined.

(** * Further properties of the executor *)

Section Prelude.

Context (pf : Platform).

(** What happens before the round trip: either the call ends without
    one, by a panic on a nil value or with an error, or the encoder has
    produced a body and the request of [requestOf] is sent once. *)
Lemma DoRequestWithOptions_prelude options c :
  let r := DoRequestWithOptions pf options c in
  (trace r = [] ∧
   ((outcome r = Panic NilDereference ∧
     (RequestPayloadEncoder (setDefaultOptions c options) = None ∨
      ∃ enc, RequestPayloadEncoder (setDefaultOptions c options) = Some enc ∧
             enc (Payload options) = (None, None) ∧ is_Some (AfterCallback options))) ∨
    ∃ err, outcome r = Return (failure (setDefaultOptions c options) (Some err)))) ∨
  ∃ enc payloadReader,
    RequestPayloadEncoder (setDefaultOptions c options) = Some enc ∧
    enc (Payload options) = (payloadReader, None) ∧
    (is_Some (AfterCallback options) →
     ∃ src, payloadReader = Some src ∧ readErr src = None) ∧
    let req := requestOf pf c (setDefaultOptions c options)
                 (sentBody options payloadReader) in
    let curl := if debugMode c then http2curl_GetCurlCommand pf req else "" in
    match http_Do pf (httpClient2 c) req with
    | inl resp =>
        let r' := DoRequestWithOptions_received pf (setDefaultOptions c options)
                    req (copiedBody options payloadReader) curl resp c in
        outcome r = outcome r' ∧ trace r = EvDo req (inl resp) :: trace r'
    | inr err =>
        outcome r =
          Return (failure (setDefaultOptions c options)
                    (Some (wrapErr_Wrap (fmt_Errorf "do http request")
                             (debugWrap pf c curl (Some err))))) ∧
        trace r = [EvDo req (inr err)]
    end.
Proof.
  unfold DoRequestWithOptions, http_NewRequestWithContext, nonNil, receiver, emit, panic,
    mbind, M_bind, mret, M_ret. cbv zeta. cbn [outcome after trace].
  destruct (RequestPayloadEncoder (setDefaultOptions c options)) as [enc|] eqn:Henc;
    cbn [outcome after trace]; [|left; split; [done|]; left; split; [done|by left]].
  change (Payload (setDefaultOptions c options)) with (Payload options).
  destruct (enc (Payload options)) as [payloadReader [err|]] eqn:Hp;
    cbn [outcome after trace]; [left; split; [done|]; right; by eexists|].
  unfold sentBody, copiedBody.
  change (AfterCallback (setDefaultOptions c options)) with (AfterCallback options).
  destruct (AfterCallback options) as [cb|] eqn:Hcb;
    [destruct payloadReader as [src|]; cbn [outcome after trace];
     [|left; split; [done|]; left; split; [done|]; right; exists enc; by eauto];
     destruct (readErr src) as [err|] eqn:Hre; cbn [outcome after trace];
     [left; split; [done|]; right; by eexists|]
    |cbn [outcome after trace]].
  all: unfold requestOf; cbn [setDefaultOptions Ctx Method Url UrlParams fmap option_fmap
         option_map withHeader withQuery reqCtx reqMethod reqURL parsedFrom RawQuery Header
         reqBody];
    destruct (Ctx options) as [ctx|]; cbn [default outcome after trace];
    destruct (newRequest_check pf _ _) as [err|]; cbn [outcome after trace];
    try (left; split; [done|]; right; by eexists);
    right; exists enc; eexists; (split; [reflexivity|]);
    (split; [exact Hp|]); (split; [first [by intros [? ?] | by intros _; eexists] |]).
  all: cbn [withHeader withQuery reqCtx reqMethod reqURL parsedFrom RawQuery Header reqBody
              fmap option_fmap option_map id default];
    destruct (http_Do pf _ _); cbn [outcome after trace]; split; reflexivity.
Qed.

(** The callback is handed the request as it was sent. *)
Lemma withBody_requestOf c options payloadReader :
  is_Some (AfterCallback options) →
  (∃ src, payloadReader = Some src ∧ readErr src = None) →
  withBody (requestOf pf c (setDefaultOptions c options) (sentBody options payloadReader))
    (Some (bytes_NewBuffer (copiedBody options payloadReader))) =
  requestOf pf c (setDefaultOptions c options) (sentBody options payloadReader).
Proof.
  intros [cb Hcb] (src & -> & _). unfold sentBody, copiedBody.
  revert Hcb. by destruct (AfterCallback options).
Qed.

(** Every round trip recorded in a run, read back to the options. *)
Lemma DoRequestWithOptions_sent_request options c req answer :
  let r := DoRequestWithOptions pf options c in
  EvDo req answer ∈ trace r →
  ∃ enc payloadReader,
    RequestPayloadEncoder (setDefaultOptions c options) = Some enc ∧
    enc (Payload options) = (payloadReader, None) ∧
    (is_Some (AfterCallback options) →
     ∃ src, payloadReader = Some src ∧ readErr src = None) ∧
    req = requestOf pf c (setDefaultOptions c options) (sentBody options payloadReader) ∧
    answer = http_Do pf (httpClient2 c) req ∧
    let curl := if debugMode c then http2curl_GetCurlCommand pf req else "" in
    match answer with
    | inl resp =>
        outcome r =
          outcome (DoRequestWithOptions_received pf (setDefaultOptions c options)
                     req (copiedBody options payloadReader) curl resp c) ∧
        trace r = EvDo req answer ::
                  match AfterCallback options with
                  | Some _ => [EvAfterCallback req resp]
                  | None => []
                  end
    | inr err =>
        outcome r =
          Return (failure (setDefaultOptions c options)
                    (Some (wrapErr_Wrap (fmt_Errorf "do http request")
                             (debugWrap pf c curl (Some err))))) ∧
        trace r = [EvDo req answer]
    end.
Proof.
  intros r Hin.
  destruct (DoRequestWithOptions_prelude options c)
    as [[Hnil _]|(enc & payloadReader & Henc & Hp & Hsrc & Hrun)].
  { fold r in Hnil. rewrite Hnil in Hin. by apply elem_of_nil in Hin. }
  fold r in Hrun. cbv zeta in Hrun.
  set (rq := requestOf pf c (setDefaultOptions c options) (sentBody options payloadReader))
    in *.
  assert (req = rq ∧ answer = http_Do pf (httpClient2 c) rq) as [-> ->].
  { destruct (http_Do pf (httpClient2 c) rq) as [resp|err].
    - destruct Hrun as [_ Htr]. rewrite Htr, DoRequestWithOptions_received_trace in Hin.
      apply elem_of_cons in Hin as [Heq|Hin]; [by simplify_eq|].
      destruct (AfterCallback _);
        [by apply list_elem_of_singleton in Hin | by apply elem_of_nil in Hin].
    - destruct Hrun as [_ Htr]. rewrite Htr in Hin.
      apply list_elem_of_singleton in Hin. by simplify_eq. }
  exists enc, payloadReader. do 5 (split; [done|]). cbv zeta.
  destruct (http_Do pf (httpClient2 c) rq) as [resp|err]; [|done].
  destruct Hrun as [Hout Htr]. split; [done|].
  rewrite Htr, DoRequestWithOptions_received_trace.
  change (AfterCallback (setDefaultOptions c options)) with (AfterCallback options).
  destruct (AfterCallback options) as [cb|] eqn:Hcb; [|done].
  unfold rq. rewrite withBody_requestOf; [done|by rewrite Hcb|apply Hsrc; by eexists].
Qed.

(** An answered run continues with the response as the callback left
    it. *)
Lemma DoRequestWithOptions_answered options c req resp :
  let r := DoRequestWithOptions pf options c in
  EvDo req (inl resp) ∈ trace r →
  ∃ reqBuffer,
    leftByCallback (setDefaultOptions c options) req reqBuffer resp =
      observedBy options req resp ∧
    outcome r =
      outcome (DoRequestWithOptions_received pf (setDefaultOptions c options) req reqBuffer
                 (if debugMode c then http2curl_GetCurlCommand pf req else "") resp c).
Proof.
  intros r Hin.
  destruct (DoRequestWithOptions_sent_request options c req (inl resp) Hin)
    as (enc & payloadReader & _ & _ & Hsrc & Hreq & _ & Hout & _).
  exists (copiedBody options payloadReader). split; [|exact Hout].
  unfold leftByCallback, observedBy.
  change (AfterCallback (setDefaultOptions c options)) with (AfterCallback options).
  destruct (AfterCallback options) as [cb|] eqn:Hcb; [|done].
  rewrite Hreq at 1. rewrite withBody_requestOf, <- Hreq; [done|by rewrite Hcb|].
  apply Hsrc. by eexists.
Qed.

(** The three ways in which the second half of the executor ends. *)
Lemma DoRequestWithOptions_received_handler options req reqBuffer curl resp c handler :
  let resp' := leftByCallback options req reqBuffer resp in
  defaultIsError c resp' = true →
  errorHandler c = Some handler →
  outcome (DoRequestWithOptions_received pf options req reqBuffer curl resp c) =
  Return (failure options
            (Some (wrapErr_Wrap
                     (fmt_Errorf ("http status code=" +:+ pretty (StatusCode resp')
                                  +:+ " curl"))
                     (handler (Body resp'))))).
Proof.
  unfold leftByCallback. intros Hcls Hh. run_unfold.
  destruct (AfterCallback options); cbn [outcome after trace] in *;
    rewrite Hcls, Hh; reflexivity.
Qed.

Lemma DoRequestWithOptions_received_success options req reqBuffer curl resp c :
  let resp' := leftByCallback options req reqBuffer resp in
  defaultIsError c resp' = false →
  outcome (DoRequestWithOptions_received pf options req reqBuffer curl resp c) =
  match Result options with
  | None => Return {| reply_resp := Some resp'; reply_err := None; reply_result := None |}
  | Some target =>
      match RequestPayloadDecoder options with
      | None => Panic NilDereference
      | Some decoder =>
          match decodeResult decoder (Body resp') target with
          | (Some err, target) =>
              Return {| reply_resp := None;
                        reply_err :=
                          Some (wrapErr_Wrap (fmt_Errorf "decode resp.Body")
                                  (debugWrap pf c curl (Some err)));
                        reply_result := Some target |}
          | (None, target) =>
              Return {| reply_resp := Some resp'; reply_err := None;
                        reply_result := Some target |}
          end
      end
  end.
Proof.
  unfold leftByCallback. intros Hcls. run_unfold.
  destruct (AfterCallback options); cbn [outcome after trace] in *;
    rewrite Hcls;
    destruct (Result options); [|reflexivity| |reflexivity];
    destruct (RequestPayloadDecoder options); cbn [outcome after trace];
    try reflexivity;
    destruct (decodeResult _ _ _) as [[err|] target]; reflexivity.
Qed.

Lemma DoRequestWithOptions_received_reply options req reqBuffer curl resp c reply :
  outcome (DoRequestWithOptions_received pf options req reqBuffer curl resp c)
    = Return reply →
  wellFormedReply reply.
Proof.
  unfold wellFormedReply. run_unfold.
  repeat (run_step; cbn [outcome after trace] in * );
    intros; simplify_eq/=; eauto.
Qed.



(** The error path of the second half, whatever the configuration. *)
Lemma DoRequestWithOptions_received_failure options req reqBuffer curl resp c :
  let resp' := leftByCallback options req reqBuffer resp in
  defaultIsError c resp' = true →
  outcome (DoRequestWithOptions_received pf options req reqBuffer curl resp c) =
  match errorHandler c with
  | Some handler =>
      Return (failure options
                (Some (wrapErr_Wrap
                         (fmt_Errorf ("http status code=" +:+ pretty (StatusCode resp')
                                      +:+ " curl"))
                         (handler (Body resp')))))
  | None =>
      match requestPayloadDecoder c with
      | None => Panic NilDereference
      | Some dec =>
          match decodeErr dec (Body resp') (NewErr 0 "" None) with
          | (Some err, _) => Panic (PanicError err)
          | (None, e) =>
              Return (failure options
                        (Some (wrapErr_Wrap
                                 (fmt_Errorf ("http status code="
                                              +:+ pretty (StatusCode resp') +:+ " curl"))
                                 (Some (ErrValue e)))))
          end
      end
  end.
Proof.
  unfold leftByCallback. intros Hcls. run_unfold.
  destruct (AfterCallback options); cbn [outcome after trace] in *;
    rewrite Hcls;
    destruct (errorHandler c); try reflexivity;
    destruct (requestPayloadDecoder c); cbn [outcome after trace]; try reflexivity;
    destruct (decodeErr _ _ _) as [[err|] e]; reflexivity.
Qed.


End Prelude.

(** ** The after-callback *)

(** C2, as the claim states it, fails: on a response with status 404 the
    call fails with the classified error, and the callback has been
    called. *)
Lemma afterCallback_called_on_error_status :
  let pf := Scenario.answering (Scenario.response 404 Scenario.errorBody) in
  let c := NewHttpClient pf (Scenario.paramsWith (Some (λ _, Some Scenario.someError)) None []) in
  let r := DoRequestWithOptions pf (Scenario.request [] [] None (Some Scenario.observe)) c in
  defaultIsError c (Scenario.response 404 Scenario.errorBody) = true ∧
  outcome r =
    Return {| reply_resp := None;
              reply_err := Some (WrapErr (ErrorString "http status code=404 curl")
                                   (Some Scenario.someError));
              reply_result := None |} ∧
  snd <$> callbackCalls (trace r) = [Scenario.response 404 Scenario.errorBody].
Proof. cbv zeta. repeat split; vm_compute; reflexivity. Qed.

(** C2, amended. In every call with an after-callback whose round trip is
    answered by the transport, the callback is called exactly once, with
    the request as it was sent, its body a buffer holding the bytes of the
    encoded payload, and the response as received.  This happens before
    the response is classified, on the error path as on the success path:
    the classification, the error handling and the status code reported
    are those of the response as the callback leaves it. *)
Theorem afterCallback_called_once_answered (pf : Platform) (c : HttpClient)
    (options : RequestOptions) (callback : Request → Response → Response)
    (req : Request) (resp : Response) :
  let r := DoRequestWithOptions pf options c in
  let resp' := callback req resp in
  AfterCallback options = Some callback →
  EvDo req (inl resp) ∈ trace r →
  callbackCalls (trace r) = [(req, resp)] ∧
  (∃ enc src,
     RequestPayloadEncoder (setDefaultOptions c options) = Some enc ∧
     enc (Payload options) = (Some src, None) ∧
     reqBody req = Some (bytes_NewBuffer (content src))) ∧
  (defaultIsError c resp' = true →
   outcome r =
     match errorHandler c with
     | Some handler =>
         Return {| reply_resp := None;
                   reply_err :=
                     Some (WrapErr
                             (ErrorString ("http status code="
                                           +:+ pretty (StatusCode resp') +:+ " curl"))
                             (handler (Body resp')));
                   reply_result := Result options |}
     | None =>
         match requestPayloadDecoder c with
         | None => Panic NilDereference
         | Some dec =>
             match decodeErr dec (Body resp') (NewErr 0 "" None) with
             | (Some err, _) => Panic (PanicError err)
             | (None, e) =>
                 Return {| reply_resp := None;
                           reply_err :=
                             Some (WrapErr
                                     (ErrorString ("http status code="
                                                   +:+ pretty (StatusCode resp')
                                                   +:+ " curl"))
                                     (Some (ErrValue e)));
                           reply_result := Result options |}
             end
         end
     end) ∧
  (defaultIsError c resp' = false →
   match outcome r with
   | Return reply =>
       reply_err reply = None ∨
       ∃ inner, reply_err reply = Some (WrapErr (ErrorString "decode resp.Body") inner)
   | Panic v => v = NilDereference
   end).
Proof.
  intros r resp' Hcb Hin.
  destruct (DoRequestWithOptions_sent_request pf options c req (inl resp) Hin)
    as (enc & payloadReader & Henc & Hp & Hsrc & Hreq & _ & _ & Htr).
  destruct (DoRequestWithOptions_answered pf options c req resp Hin) as (buf & Hobs & Hout).
  fold r in Htr, Hout. unfold observedBy in Hobs. rewrite Hcb in Hobs, Htr.
  fold resp' in Hobs.
  destruct Hsrc as (src & -> & Hre); [by eexists|].
  split; [by rewrite Htr|]. split.
  { exists enc, src. split; [done|]. split; [done|].
    rewrite Hreq. cbn [requestOf reqBody]. unfold sentBody. by rewrite Hcb. }
  split.
  - intros Hcls. rewrite Hout. rewrite <- Hobs in *.
    by rewrite (DoRequestWithOptions_received_failure pf _ _ _ _ _ _ Hcls).
  - intros Hcls. rewrite Hout. rewrite <- Hobs in *.
    rewrite (DoRequestWithOptions_received_success pf _ _ _ _ _ _ Hcls).
    destruct (Result _); [|by left].
    destruct (RequestPayloadDecoder _); [|done].
    destruct (decodeResult _ _ _) as [[err|] target]; [right; by eexists|by left].
Qed.

Lemma afterCallback_called_once_answered_witness :
  let received := Scenario.response 200 "{}" in
  let pf := Scenario.answering received in
  let c := NewHttpClient pf (Scenario.paramsWith (Some (λ _, Some Scenario.someError)) None []) in
  let options := Scenario.request [] [] None (Some (Scenario.relabel 503)) in
  let r := DoRequestWithOptions pf options c in
  ∃ req,
    callbackCalls (trace r) = [(req, received)] ∧
    reqBody req = Some (bytes_NewBuffer "null") ∧
    outcome r =
      Return {| reply_resp := None;
                reply_err := Some (WrapErr (ErrorString "http status code=503 curl")
                                     (Some Scenario.someError));
                reply_result := None |}.
Proof.
  intros received pf c options r.
  exists (requestOf pf c (setDefaultOptions c options) (Some (bytes_NewBuffer "null"))).
  destruct (afterCallback_called_once_answered pf c options (Scenario.relabel 503)
              (requestOf pf c (setDefaultOptions c options) (Some (bytes_NewBuffer "null")))
              received) as (Hcalls & _ & Herr & _).
  - reflexivity.
  - apply list_elem_of_here.
  - split; [exact Hcalls|]. split; [reflexivity|]. apply Herr. reflexivity.
Defined.

(** ** Failures before the round trip *)

(** X1. When the resolved encoder fails, the call returns that failure
    wrapped as [requestPayloadEncoder] and makes no round trip. *)
Theorem encode_failure_aborts (pf : Platform) (c : HttpClient) (options : RequestOptions)
    (enc : DataEncoder) (stream : option Reader) (err : GoError) :
  RequestPayloadEncoder (setDefaultOptions c options) = Some enc →
  enc (Payload options) = (stream, Some err) →
  outcome (DoRequestWithOptions pf options c) =
    Return {| reply_resp := None;
              reply_err := Some (WrapErr (ErrorString "requestPayloadEncoder") (Some err));
              reply_result := Result options |} ∧
  trace (DoRequestWithOptions pf options c) = [].
Proof.
  intros Henc Hp. prelude_unfold. rewrite Henc. cbn [outcome after trace].
  change (Payload (setDefaultOptions c options)) with (Payload options).
  rewrite Hp. split; reflexivity.
Qed.

Lemma encode_failure_aborts_witness :
  let pf := Scenario.answering (Scenario.response 200 "{}") in
  let c := NewHttpClient pf Scenario.params in
  let options := Scenario.post (Some Scenario.channel) None None None None in
  outcome (DoRequestWithOptions pf options c) =
    Return {| reply_resp := None;
              reply_err :=
                Some (WrapErr (ErrorString "requestPayloadEncoder")
                        (Some (ErrorString
                                 "json Marshal: json: unsupported type: chan int")));
              reply_result := Result options |} ∧
  trace (DoRequestWithOptions pf options c) = [].
Proof.
  intros pf c options.
  apply (encode_failure_aborts pf c options JsonEncoder None); reflexivity.
Defined.

(** X2. When the call has an after-callback and the resolved encoder
    returns neither a stream nor an error (as [GobEncoder] does for a nil
    payload), copying the body dereferences the nil stream: the call
    panics and makes no round trip. *)
Theorem nil_stream_with_callback_panics (pf : Platform) (c : HttpClient)
    (options : RequestOptions) (enc : DataEncoder)
    (callback : Request → Response → Response) :
  RequestPayloadEncoder (setDefaultOptions c options) = Some enc →
  enc (Payload options) = (None, None) →
  AfterCallback options = Some callback →
  outcome (DoRequestWithOptions pf options c) = Panic NilDereference ∧
  trace (DoRequestWithOptions pf options c) = [].
Proof.
  intros Henc Hp Hcb. prelude_unfold. rewrite Henc. cbn [outcome after trace].
  change (Payload (setDefaultOptions c options)) with (Payload options).
  rewrite Hp.
  change (AfterCallback (setDefaultOptions c options)) with (AfterCallback options).
  rewrite Hcb. split; reflexivity.
Qed.

Lemma nil_stream_with_callback_panics_witness :
  let pf := Scenario.answering (Scenario.response 200 "{}") in
  let c := NewHttpClient pf Scenario.params in
  let options := Scenario.post None None (Some GobEncoder) None (Some Scenario.observe) in
  outcome (DoRequestWithOptions pf options c) = Panic NilDereference ∧
  trace (DoRequestWithOptions pf options c) = [].
Proof.
  intros pf c options.
  apply (nil_stream_with_callback_panics pf c options GobEncoder Scenario.observe);
    reflexivity.
Defined.

(** X3. When the call has an after-callback and reading the encoded
    stream fails, the call returns the read error as it is, without a
    wrapper, and makes no round trip. *)
Theorem body_read_failure_aborts (pf : Platform) (c : HttpClient)
    (options : RequestOptions) (enc : DataEncoder) (src : Reader) (err : GoError)
    (callback : Request → Response → Response) :
  RequestPayloadEncoder (setDefaultOptions c options) = Some enc →
  enc (Payload options) = (Some src, None) →
  readErr src = Some err →
  AfterCallback options = Some callback →
  outcome (DoRequestWithOptions pf options c) =
    Return {| reply_resp := None; reply_err := Some err;
              reply_result := Result options |} ∧
  trace (DoRequestWithOptions pf options c) = [].
Proof.
  intros Henc Hp Hre Hcb. prelude_unfold. rewrite Henc. cbn [outcome after trace].
  change (Payload (setDefaultOptions c options)) with (Payload options).
  rewrite Hp.
  change (AfterCallback (setDefaultOptions c options)) with (AfterCallback options).
  rewrite Hcb. cbn [outcome after trace]. rewrite Hre. split; reflexivity.
Qed.

Lemma body_read_failure_aborts_witness :
  let pf := Scenario.answering (Scenario.response 200 "{}") in
  let c := NewHttpClient pf Scenario.params in
  let options := Scenario.post None None (Some Scenario.brokenStream) None
                   (Some Scenario.observe) in
  outcome (DoRequestWithOptions pf options c) =
    Return {| reply_resp := None; reply_err := Some (ErrorString "unexpected EOF");
              reply_result := Result options |} ∧
  trace (DoRequestWithOptions pf options c) = [].
Proof.
  intros pf c options.
  eapply (body_read_failure_aborts pf c options Scenario.brokenStream); reflexivity.
Defined.

(** X4. When the request cannot be built, the call returns the failure
    wrapped as [new request with context] and makes no round trip. *)
Theorem request_construction_failure (pf : Platform) (c : HttpClient)
    (options : RequestOptions) (enc : DataEncoder) (stream : option Reader)
    (err : GoError) :
  RequestPayloadEncoder (setDefaultOptions c options) = Some enc →
  enc (Payload options) = (stream, None) →
  (is_Some (AfterCallback options) → ∃ src, stream = Some src ∧ readErr src = None) →
  newRequest_check pf (Method (setDefaultOptions c options)) (baseUrl c +:+ Url options)
    = Some err →
  outcome (DoRequestWithOptions pf options c) =
    Return {| reply_resp := None;
              reply_err := Some (WrapErr (ErrorString "new request with context")
                                   (Some err));
              reply_result := Result options |} ∧
  trace (DoRequestWithOptions pf options c) = [].
Proof.
  intros Henc Hp Hsrc Hnew. prelude_unfold. rewrite Henc. cbn [outcome after trace].
  change (Payload (setDefaultOptions c options)) with (Payload options).
  rewrite Hp.
  change (AfterCallback (setDefaultOptions c options)) with (AfterCallback options).
  change (Url (setDefaultOptions c options)) with (Url options).
  destruct (AfterCallback options) as [cb|].
  - destruct Hsrc as (src & -> & Hre); [by eexists|].
    cbn [outcome after trace]. rewrite Hre. cbn [setDefaultOptions Ctx].
    destruct (Ctx options); rewrite Hnew; split; reflexivity.
  - cbn [setDefaultOptions Ctx outcome after trace].
    destruct (Ctx options); rewrite Hnew; split; reflexivity.
Qed.

Lemma request_construction_failure_witness :
  let err := ErrorString "net/http: invalid method" in
  let pf := Scenario.rejecting err in
  let c := NewHttpClient pf Scenario.params in
  let options := Scenario.post None None None None (Some Scenario.observe) in
  outcome (DoRequestWithOptions pf options c) =
    Return {| reply_resp := None;
              reply_err := Some (WrapErr (ErrorString "new request with context")
                                   (Some err));
              reply_result := Result options |} ∧
  trace (DoRequestWithOptions pf options c) = [].
Proof.
  intros err pf c options.
  apply (request_construction_failure pf c options JsonEncoder
           (Some (bytes_NewBuffer "null")) err).
  - reflexivity.
  - reflexivity.
  - intros _. by eexists.
  - reflexivity.
Defined.

(** ** The round trip *)

(** X5. When the transport fails, the call returns the failure wrapped as
    [do http request], with the elapsed time and the curl command of the
    request in between when the client is in debug mode, and the
    after-callback is not called. *)
Theorem transport_failure_wrapped (pf : Platform) (c : HttpClient)
    (options : RequestOptions) (req : Request) (err : GoError) :
  EvDo req (inr err) ∈ trace (DoRequestWithOptions pf options c) →
  outcome (DoRequestWithOptions pf options c) =
    Return {| reply_resp := None;
              reply_err :=
                Some (WrapErr (ErrorString "do http request")
                        (if debugMode c then
                           Some (WrapErr (ErrorString (time_took pf))
                                   (Some (WrapErr
                                            (ErrorString
                                               ("curl: " +:+ http2curl_GetCurlCommand pf req))
                                            (Some err))))
                         else Some err));
              reply_result := Result options |} ∧
  trace (DoRequestWithOptions pf options c) = [EvDo req (inr err)].
Proof.
  intros Hin.
  destruct (DoRequestWithOptions_sent_request pf options c req (inr err) Hin)
    as (_ & _ & _ & _ & _ & _ & _ & Hout & Htr).
  split; [|exact Htr]. rewrite Hout. unfold debugWrap, failure.
  by destruct (debugMode c).
Qed.

Lemma transport_failure_wrapped_witness :
  let err := ErrorString "context deadline exceeded" in
  let pf := Scenario.refusing err in
  let c := NewHttpClient pf Scenario.params in
  let options := Scenario.post None None None None (Some Scenario.observe) in
  outcome (DoRequestWithOptions pf options c) =
    Return {| reply_resp := None;
              reply_err := Some (WrapErr (ErrorString "do http request") (Some err));
              reply_result := None |} ∧
  callbackCalls (trace (DoRequestWithOptions pf options c)) = [].
Proof.
  intros err pf c options.
  destruct (transport_failure_wrapped pf c options
              (requestOf pf c (setDefaultOptions c options)
                 (Some (bytes_NewBuffer "null"))) err) as [Hout Htr].
  - apply list_elem_of_here.
  - split; [exact Hout|]. rewrite Htr. reflexivity.
Defined.

(** X6. A call makes at most one round trip and never repeats it.  The
    after-callback is called only after an answered round trip, exactly
    once, with the request as it was sent (its body holding the bytes that
    were sent) and the response as received; nothing else is asked of the
    collaborators. *)
Theorem at_most_one_round_trip (pf : Platform) (c : HttpClient)
    (options : RequestOptions) :
  let r := DoRequestWithOptions pf options c in
  trace r = [] ∨
  (∃ req err, trace r = [EvDo req (inr err)]) ∨
  (∃ req resp,
     trace r = EvDo req (inl resp) ::
               match AfterCallback options with
               | Some _ => [EvAfterCallback req resp]
               | None => []
               end).
Proof.
  intros r.
  destruct (trace r) as [|ev evs] eqn:Htr; [by left|right].
  destruct (DoRequestWithOptions_prelude pf options c)
    as [[Hnil _]|(enc & payloadReader & _ & _ & _ & Hrun)];
    [fold r in Hnil; congruence|].
  cbv zeta in Hrun.
  set (rq := requestOf pf c (setDefaultOptions c options) (sentBody options payloadReader))
    in *.
  destruct (http_Do pf (httpClient2 c) rq) as [resp|err] eqn:Hdo.
  - right. exists rq, resp.
    assert (Hin : EvDo rq (inl resp) ∈ trace (DoRequestWithOptions pf options c)).
    { destruct Hrun as [_ ->]. apply list_elem_of_here. }
    destruct (DoRequestWithOptions_sent_request pf options c rq (inl resp) Hin)
      as (_ & _ & _ & _ & _ & _ & _ & _ & Htr').
    fold r in Htr'. by rewrite <- Htr, Htr'.
  - left. exists rq, err. destruct Hrun as [_ Htr']. fold r in Htr'.
    by rewrite <- Htr, Htr'.
Qed.

(** X7. The request of the round trip is made with the method of the
    options, [GET] when it is empty, and with the context of the options,
    the background context when it is nil.  Its URL is parsed from the
    base URL of the client followed by the URL of the options, and the
    query of that URL is then overwritten by the encoding of its own
    query values together with the URL parameters of the options. *)
Theorem request_line_of_options (pf : Platform) (c : HttpClient)
    (options : RequestOptions) (req : Request) (answer : Response + GoError) :
  EvDo req answer ∈ trace (DoRequestWithOptions pf options c) →
  reqMethod req = (if decide (Method options = "") then "GET" else Method options) ∧
  reqURL req =
    {| parsedFrom := baseUrl c +:+ Url options;
       RawQuery :=
         Some (query_Encode pf (baseUrl c +:+ Url options) (UrlParams options)) |} ∧
  reqCtx req = default context_Background (Ctx options).
Proof.
  intros Hin.
  destruct (DoRequestWithOptions_sent_request pf options c req answer Hin)
    as (enc & payloadReader & _ & _ & _ & Hreq & _).
  rewrite Hreq.
  unfold requestOf. cbn [reqMethod reqURL reqCtx setDefaultOptions Method Url Ctx
                          UrlParams].
  repeat split; try reflexivity. by destruct (Ctx options).
Qed.

Lemma request_line_of_options_witness :
  let pf := Scenario.answering (Scenario.response 200 "{}") in
  let c := NewHttpClient pf Scenario.params in
  let options := Scenario.bare "/qwe?b=2&a=1" in
  ∃ req answer,
    trace (DoRequestWithOptions pf options c) = [EvDo req answer] ∧
    reqMethod req = "GET" ∧
    reqURL req = {| parsedFrom := "http://127.0.0.1:8080/qwe?b=2&a=1";
                    RawQuery := Some "a=1&b=2" |} ∧
    reqCtx req = context_Background.
Proof.
  intros pf c options. eexists _, _. split; [reflexivity|].
  match goal with
  | |- reqMethod ?rq = _ ∧ _ =>
      destruct (request_line_of_options pf c options rq
                  (inl (Scenario.response 200 "{}"))) as (Hm & Hu & Hc)
  end.
  - apply list_elem_of_here.
  - split; [exact Hm|]. split; [exact Hu|exact Hc].
Defined.

(** X8. The body of the request holds the bytes of the stream that the
    resolved encoder (the one given for the call, else the one of the
    client) returns for the payload. *)
Theorem request_body_from_resolved_encoder (pf : Platform) (c : HttpClient)
    (options : RequestOptions) (enc : DataEncoder) (src : Reader)
    (req : Request) (answer : Response + GoError) :
  RequestPayloadEncoder (setDefaultOptions c options) = Some enc →
  enc (Payload options) = (Some src, None) →
  EvDo req answer ∈ trace (DoRequestWithOptions pf options c) →
  content <$> reqBody req = Some (content src).
Proof.
  intros Henc Hp Hin.
  destruct (DoRequestWithOptions_sent_request pf options c req answer Hin)
    as (enc' & payloadReader & Henc' & Hp' & _ & Hreq & _).
  rewrite Hreq. rewrite Henc in Henc'. simplify_eq. rewrite Hp in Hp'. simplify_eq.
  cbn [reqBody requestOf]. unfold sentBody.
  by destruct (AfterCallback options).
Qed.

Lemma request_body_from_resolved_encoder_witness :
  let pf := Scenario.answering (Scenario.response 200 "{}") in
  let c := NewHttpClient pf Scenario.params in
  let options := Scenario.post (Some Scenario.text1) None (Some GobEncoder) None
                   (Some Scenario.observe) in
  ∃ req answer,
    trace (DoRequestWithOptions pf options c) =
      [EvDo req answer; EvAfterCallback req (Scenario.response 200 "{}")] ∧
    content <$> reqBody req = Some "gob:text1".
Proof.
  intros pf c options. eexists _, _. split; [reflexivity|].
  apply (request_body_from_resolved_encoder pf c options GobEncoder
           (bytes_NewBuffer "gob:text1") _ (inl (Scenario.response 200 "{}"))).
  - reflexivity.
  - reflexivity.
  - apply list_elem_of_here.
Defined.

(** ** After the answer *)

(** X9. When the response is classified as an error and the client has an
    error handler, the call returns what the handler makes of the body
    (be it nil) wrapped with the status code; no decoder is used, the call
    does not panic, and the error carries no debug diagnostics even in
    debug mode. *)
Theorem custom_error_handler_decides (pf : Platform) (c : HttpClient)
    (options : RequestOptions) (req : Request) (resp : Response)
    (handler : Reader → option GoError) :
  let resp' := observedBy options req resp in
  EvDo req (inl resp) ∈ trace (DoRequestWithOptions pf options c) →
  defaultIsError c resp' = true →
  errorHandler c = Some handler →
  outcome (DoRequestWithOptions pf options c) =
    Return {| reply_resp := None;
              reply_err :=
                Some (WrapErr
                        (ErrorString ("http status code=" +:+ pretty (StatusCode resp')
                                      +:+ " curl"))
                        (handler (Body resp')));
              reply_result := Result options |}.
Proof.
  intros resp' Hin Hcls Hh.
  destruct (DoRequestWithOptions_answered pf options c req resp Hin) as (buf & Hobs & ->).
  fold resp' in Hobs. rewrite <- Hobs in *.
  by rewrite (DoRequestWithOptions_received_handler pf _ _ _ _ _ _ handler Hcls Hh).
Qed.

Lemma custom_error_handler_decides_witness :
  let resp := Scenario.response 400 Scenario.errorBody in
  let pf := Scenario.answering resp in
  let c := NewHttpClient pf (Scenario.debugging (λ _, Some Scenario.someError)) in
  let options := Scenario.post None None None None None in
  outcome (DoRequestWithOptions pf options c) =
    Return {| reply_resp := None;
              reply_err := Some (WrapErr (ErrorString "http status code=400 curl")
                                   (Some Scenario.someError));
              reply_result := None |}.
Proof.
  intros resp pf c options.
  apply (custom_error_handler_decides pf c options
           (requestOf pf c (setDefaultOptions c options) (Some (bytes_NewBuffer "null")))
           resp (λ _, Some Scenario.someError)).
  - apply list_elem_of_here.
  - reflexivity.
  - reflexivity.
Defined.

(** X10. When the response is not classified as an error and the call has
    no result target, the call returns no error and the response, with the
    status code and the headers that the callback left in it; no decoder is
    needed. *)
Theorem success_without_target (pf : Platform) (c : HttpClient)
    (options : RequestOptions) (req : Request) (resp : Response) :
  let resp' := observedBy options req resp in
  EvDo req (inl resp) ∈ trace (DoRequestWithOptions pf options c) →
  defaultIsError c resp' = false →
  Result options = None →
  ∃ returned,
    outcome (DoRequestWithOptions pf options c) =
      Return {| reply_resp := Some returned; reply_err := None; reply_result := None |} ∧
    StatusCode returned = StatusCode resp' ∧
    respHeader returned = respHeader resp'.
Proof.
  intros resp' Hin Hcls Hres.
  destruct (DoRequestWithOptions_answered pf options c req resp Hin) as (buf & Hobs & ->).
  fold resp' in Hobs. rewrite <- Hobs in *.
  rewrite (DoRequestWithOptions_received_success pf _ _ _ _ _ _ Hcls).
  cbn [setDefaultOptions Result]. rewrite Hres. by eexists.
Qed.

Lemma success_without_target_witness :
  let resp := Scenario.response 204 "" in
  let pf := Scenario.answering resp in
  let c := NewHttpClient pf Scenario.params in
  let options := Scenario.post None None None None None in
  ∃ returned,
    outcome (DoRequestWithOptions pf options c) =
      Return {| reply_resp := Some returned; reply_err := None; reply_result := None |} ∧
    StatusCode returned = 204 ∧
    respHeader returned = ∅.
Proof.
  intros resp pf c options.
  apply (success_without_target pf c options
           (requestOf pf c (setDefaultOptions c options) (Some (bytes_NewBuffer "null")))
           resp).
  - apply list_elem_of_here.
  - reflexivity.
  - reflexivity.
Defined.

(** X11. When the response is not classified as an error and the call has
    a result target, the body that the callback left is decoded into the
    target by the resolved decoder (the one given for the call, else the
    one of the client).  If it succeeds the call returns no error and the
    response, with the status code and the headers that the callback left
    in it; if it fails the call returns no response and the failure
    wrapped as [decode resp.Body], with the debug diagnostics in debug
    mode.  In both cases the target holds what the decoder left in it. *)
Theorem success_decoded_by_resolved_decoder (pf : Platform) (c : HttpClient)
    (options : RequestOptions) (req : Request) (resp : Response)
    (target : GoIface) (dec : DataDecoder) :
  let resp' := observedBy options req resp in
  EvDo req (inl resp) ∈ trace (DoRequestWithOptions pf options c) →
  defaultIsError c resp' = false →
  Result options = Some target →
  RequestPayloadDecoder (setDefaultOptions c options) = Some dec →
  match decodeResult dec (Body resp') target with
  | (None, target') =>
      ∃ returned,
        outcome (DoRequestWithOptions pf options c) =
          Return {| reply_resp := Some returned; reply_err := None;
                    reply_result := Some target' |} ∧
        StatusCode returned = StatusCode resp' ∧
        respHeader returned = respHeader resp'
  | (Some err, target') =>
      outcome (DoRequestWithOptions pf options c) =
        Return {| reply_resp := None;
                  reply_err :=
                    Some (WrapErr (ErrorString "decode resp.Body")
                            (if debugMode c then
                               Some (WrapErr (ErrorString (time_took pf))
                                       (Some (WrapErr
                                                (ErrorString
                                                   ("curl: "
                                                    +:+ http2curl_GetCurlCommand pf req))
                                                (Some err))))
                             else Some err));
                  reply_result := Some target' |}
  end.
Proof.
  intros resp' Hin Hcls Hres Hdec.
  destruct (DoRequestWithOptions_answered pf options c req resp Hin) as (buf & Hobs & ->).
  fold resp' in Hobs. rewrite <- Hobs in *.
  rewrite (DoRequestWithOptions_received_success pf _ _ _ _ _ _ Hcls).
  change (Result (setDefaultOptions c options)) with (Result options).
  rewrite Hres, Hdec. unfold debugWrap.
  destruct (decodeResult dec _ target) as [[err|] target']; [|by eexists].
  by destruct (debugMode c).
Qed.

Lemma success_decoded_by_resolved_decoder_witness :
  let resp := Scenario.response 200 "{}" in
  let pf := Scenario.answering resp in
  let c := NewHttpClient pf Scenario.params in
  (∃ returned,
     outcome (DoRequestWithOptions pf
                (Scenario.post None (Some Scenario.text1) None None None) c) =
       Return {| reply_resp := Some returned; reply_err := None;
                 reply_result := Some Scenario.text1 |} ∧
     StatusCode returned = 200 ∧
     respHeader returned = ∅) ∧
  outcome (DoRequestWithOptions pf
             (Scenario.post None (Some Scenario.text1) None (Some (GobDecoder pf)) None) c) =
    Return {| reply_resp := None;
              reply_err := Some (WrapErr (ErrorString "decode resp.Body")
                                   (Some (ErrorString "gob dec.Decode: unexpected EOF")));
              reply_result := Some Scenario.text1 |}.
Proof.
  intros resp pf c. split.
  - apply (success_decoded_by_resolved_decoder pf c
             (Scenario.post None (Some Scenario.text1) None None None)
             (requestOf pf c
                (setDefaultOptions c (Scenario.post None (Some Scenario.text1) None None None))
                (Some (bytes_NewBuffer "null")))
             resp Scenario.text1 (JsonDecoder pf)).
    + apply list_elem_of_here.
    + reflexivity.
    + reflexivity.
    + reflexivity.
  - apply (success_decoded_by_resolved_decoder pf c
             (Scenario.post None (Some Scenario.text1) None (Some (GobDecoder pf)) None)
             (requestOf pf c
                (setDefaultOptions c
                   (Scenario.post None (Some Scenario.text1) None (Some (GobDecoder pf)) None))
                (Some (bytes_NewBuffer "null")))
             resp Scenario.text1 (GobDecoder pf)).
    + apply list_elem_of_here.
    + reflexivity.
    + reflexivity.
    + reflexivity.
Defined.

(** ** What the call returns *)

(** X12. A call that returns hands back either no response and an error,
    or a response and no error; never both, never neither. *)
Theorem response_or_error (pf : Platform) (c : HttpClient) (options : RequestOptions) :
  match outcome (DoRequestWithOptions pf options c) with
  | Return reply =>
      (reply_resp reply = None ∧ is_Some (reply_err reply)) ∨
      (is_Some (reply_resp reply) ∧ reply_err reply = None)
  | Panic _ => True
  end.
Proof.
  destruct (outcome (DoRequestWithOptions pf options c)) as [reply|v] eqn:Hout; [|done].
  destruct (DoRequestWithOptions_prelude pf options c)
    as [[_ [[Hp _]|[err Hr]]]|(enc & payloadReader & _ & _ & _ & Hrun)].
  - congruence.
  - rewrite Hr in Hout. simplify_eq. left. cbn. eauto.
  - cbv zeta in Hrun.
    destruct (http_Do pf (httpClient2 c) _) as [resp|err].
    + destruct Hrun as [Hr _]. rewrite Hr in Hout.
      by apply DoRequestWithOptions_received_reply in Hout.
    + destruct Hrun as [Hr _]. rewrite Hr in Hout. simplify_eq. left. cbn. eauto.
Qed.





(** ** Header precedence *)

Lemma setAll_app m1 m2 h : setAll (m1 ++ m2) h = setAll m2 (setAll m1 h).
Proof. unfold setAll. apply foldl_app. Qed.

(** The last entry with a given canonical key decides its value. *)
Lemma setAll_lookup_last m1 k v m2 h :
  Forall (λ kv, CanonicalMIMEHeaderKey kv.1 ≠ CanonicalMIMEHeaderKey k) m2 →
  setAll (m1 ++ (k, v) :: m2) h !! CanonicalMIMEHeaderKey k = Some [v].
Proof.
  intros Hm2. rewrite setAll_app, setAll_cons, setAll_lookup_other by done.
  apply lookup_insert_eq.
Qed.

Lemma setAll_is_Some m h K :
  is_Some (setAll m h !! K) ↔
  is_Some (h !! K) ∨ ∃ kv, kv ∈ m ∧ CanonicalMIMEHeaderKey kv.1 = K.
Proof.
  revert h. induction m as [|[k v] m IH]; intros h.
  - cbn. split; [by left|]. intros [?|(kv & Hin & _)]; [done|]. by apply elem_of_nil in Hin.
  - rewrite setAll_cons, IH. unfold Header_Set. split.
    + intros [Hs|(kv & Hin & Hk)].
      * destruct (decide (CanonicalMIMEHeaderKey k = K)) as [Heq|Hne].
        -- right. exists (k, v). split; [apply list_elem_of_here|done].
        -- left. by rewrite lookup_insert_ne in Hs.
      * right. exists kv. split; [by apply list_elem_of_further|done].
    + intros [Hs|(kv & Hin & Hk)].
      * left. destruct (decide (CanonicalMIMEHeaderKey k = K)) as [<-|Hne].
        -- rewrite lookup_insert_eq. by eexists.
        -- by rewrite lookup_insert_ne.
      * apply elem_of_cons in Hin as [->|Hin].
        -- left. cbn in Hk. rewrite <- Hk, lookup_insert_eq. by eexists.
        -- right. by exists kv.
Qed.

Lemma setAll_single_valued m (h : gmap string (list string)) :
  (∀ (K : string) vs, h !! K = Some vs → List.length vs = 1%nat) →
  ∀ (K : string) vs, setAll m h !! K = Some vs → List.length vs = 1%nat.
Proof.
  revert h. induction m as [|[k v] m IH]; intros h Hh; [exact Hh|].
  rewrite setAll_cons. apply IH. intros K vs. unfold Header_Set.
  destruct (decide (CanonicalMIMEHeaderKey k = K)) as [<-|Hne].
  - rewrite lookup_insert_eq. by intros [= <-].
  - rewrite lookup_insert_ne by done. apply Hh.
Qed.

(** X15. A header of the call wins over every header set before it: the
    outgoing request carries, under the canonical form of its key, the
    value of the last header of the call with that canonical key,
    whatever the default headers, the request id and [Accept] are. *)
Theorem call_header_wins (pf : Platform) (c : HttpClient) (options : RequestOptions)
    (req : Request) (answer : Response + GoError)
    (before later : list (string * string)) (k v : string) :
  EvDo req answer ∈ trace (DoRequestWithOptions pf options c) →
  Headers options = (before ++ (k, v) :: later)%list →
  Forall (λ kv, CanonicalMIMEHeaderKey kv.1 ≠ CanonicalMIMEHeaderKey k) later →
  Header req !! CanonicalMIMEHeaderKey k = Some [v].
Proof.
  intros Hin Hhs Hlater.
  destruct (DoRequestWithOptions_sent pf options c req answer Hin) as (-> & _).
  rewrite requestHeaders_defaults, Hhs. by apply setAll_lookup_last.
Qed.

Lemma call_header_wins_witness :
  let pf := Scenario.answering (Scenario.response 200 "{}") in
  let c := NewHttpClient pf (Scenario.paramsWith None None [("H", "a")]) in
  let options := Scenario.request [] [("h", "b")] None None in
  ∃ req answer,
    trace (DoRequestWithOptions pf options c) = [EvDo req answer] ∧
    Header req !! "H" = Some ["b"].
Proof.
  intros pf c options. eexists _, _. split; [reflexivity|].
  eapply (call_header_wins pf c options _ _ [] [] "h" "b").
  - apply list_elem_of_here.
  - reflexivity.
  - constructor.
Defined.

(** X16. A default header of the client is carried by the outgoing
    request when no later default header and no header of the call has the
    same canonical key. *)
Theorem default_header_applies (pf : Platform) (c : HttpClient) (options : RequestOptions)
    (req : Request) (answer : Response + GoError)
    (before later : list (string * string)) (k v : string) :
  EvDo req answer ∈ trace (DoRequestWithOptions pf options c) →
  headers c = (before ++ (k, v) :: later)%list →
  Forall (λ kv, CanonicalMIMEHeaderKey kv.1 ≠ CanonicalMIMEHeaderKey k) later →
  Forall (λ kv, CanonicalMIMEHeaderKey kv.1 ≠ CanonicalMIMEHeaderKey k) (Headers options) →
  Header req !! CanonicalMIMEHeaderKey k = Some [v].
Proof.
  intros Hin Hhs Hlater Hcall.
  destruct (DoRequestWithOptions_sent pf options c req answer Hin) as (-> & _).
  rewrite requestHeaders_defaults, setAll_lookup_other, Hhs by done.
  by apply setAll_lookup_last.
Qed.

Lemma default_header_applies_witness :
  let pf := Scenario.answering (Scenario.response 200 "{}") in
  let c := NewHttpClient pf
             (Scenario.paramsWith None None [("header1", "Value-of-header1")]) in
  let options := Scenario.request [] [("Header2", "Value-of-header2")] None None in
  ∃ req answer,
    trace (DoRequestWithOptions pf options c) = [EvDo req answer] ∧
    Header req !! "Header1" = Some ["Value-of-header1"].
Proof.
  intros pf c options. eexists _, _. split; [reflexivity|].
  eapply (default_header_applies pf c options _ _ [] [] "header1" "Value-of-header1").
  - apply list_elem_of_here.
  - reflexivity.
  - constructor.
  - repeat constructor. vm_compute. discriminate.
Defined.

(** X17. The outgoing request has a header under a canonical key exactly
    when the key is [Accept], or the request id is carried by the context
    as a string and the key is the canonical request-id header name, or
    the key is the canonical form of the key of a default header or of a
    header of the call; the client sets no other header. *)
Theorem headers_of_request (pf : Platform) (c : HttpClient) (options : RequestOptions)
    (req : Request) (answer : Response + GoError) (K : string) :
  EvDo req answer ∈ trace (DoRequestWithOptions pf options c) →
  is_Some (Header req !! K) ↔
  K = "Accept" ∨
  (∃ requestID,
     ctx_Value (default context_Background (Ctx options)) (VString (contextRequestId c))
       = Some (VString requestID) ∧
     K = CanonicalMIMEHeaderKey (headerKeyRequestID c)) ∨
  (∃ kv, kv ∈ headers c ∧ CanonicalMIMEHeaderKey kv.1 = K) ∨
  (∃ kv, kv ∈ Headers options ∧ CanonicalMIMEHeaderKey kv.1 = K).
Proof.
  intros Hin.
  destruct (DoRequestWithOptions_sent pf options c req answer Hin) as (-> & _).
  rewrite requestHeaders_defaults, !setAll_is_Some.
  assert (Hacc : ∀ h : gmap string (list string),
            is_Some (Header_Set "Accept" "application/json; charset=utf-8" h !! K) ↔
            K = "Accept" ∨ is_Some (h !! K)).
  { intros h. unfold Header_Set.
    change (CanonicalMIMEHeaderKey "Accept") with "Accept".
    destruct (decide ("Accept" = K)) as [<-|Hne].
    - rewrite lookup_insert_eq. split; [by left|by eexists].
    - rewrite lookup_insert_ne by done. split; [by right|]. by intros [?|?]. }
  destruct (ctx_Value _ _) as [[requestID| | |]|].
  - unfold Header_Set at 1.
    destruct (decide (CanonicalMIMEHeaderKey (headerKeyRequestID c) = K)) as [<-|Hne].
    + rewrite lookup_insert_eq. split; [|intros _; left; left; by eexists].
      intros _. right. left. by exists requestID.
    + rewrite lookup_insert_ne, Hacc, lookup_empty by done. split.
      * intros [[[->|[? ?]]|?]|?]; eauto; done.
      * intros [->|[(? & ? & ->)|[?|?]]]; eauto; done.
  - rewrite Hacc, lookup_empty. split.
    + intros [[[->|[? ?]]|?]|?]; eauto; done.
    + intros [->|[(? & ? & _)|[?|?]]]; eauto; done.
  - rewrite Hacc, lookup_empty. split.
    + intros [[[->|[? ?]]|?]|?]; eauto; done.
    + intros [->|[(? & ? & _)|[?|?]]]; eauto; done.
  - rewrite Hacc, lookup_empty. split.
    + intros [[[->|[? ?]]|?]|?]; eauto; done.
    + intros [->|[(? & ? & _)|[?|?]]]; eauto; done.
  - rewrite Hacc, lookup_empty. split.
    + intros [[[->|[? ?]]|?]|?]; eauto; done.
    + intros [->|[(? & ? & _)|[?|?]]]; eauto; done.
Qed.

Lemma headers_of_request_witness :
  let pf := Scenario.answering (Scenario.response 200 "{}") in
  let c := NewHttpClient pf Scenario.params in
  let options := Scenario.request [] [] None None in
  ∃ req answer,
    trace (DoRequestWithOptions pf options c) = [EvDo req answer] ∧
    Header req !! "User-Agent" = None.
Proof.
  intros pf c options. eexists _, _. split; [reflexivity|].
  apply eq_None_not_Some. intros Hs.
  eapply (headers_of_request pf c options) in Hs; [|apply list_elem_of_here].
  destruct Hs as [Hs|[(? & Hs & _)|[(? & Hs & _)|(? & Hs & _)]]].
  - discriminate Hs.
  - discriminate Hs.
  - by apply elem_of_nil in Hs.
  - by apply elem_of_nil in Hs.
Defined.

(** X18. Every header of the outgoing request has exactly one value: the
    client sets headers and never adds a second value to a key. *)
Theorem headers_single_valued (pf : Platform) (c : HttpClient) (options : RequestOptions)
    (req : Request) (answer : Response + GoError) (K : string) (vs : list string) :
  EvDo req answer ∈ trace (DoRequestWithOptions pf options c) →
  Header req !! K = Some vs →
  List.length vs = 1%nat.
Proof.
  intros Hin.
  destruct (DoRequestWithOptions_sent pf options c req answer Hin) as (-> & _).
  rewrite requestHeaders_defaults. apply setAll_single_valued, setAll_single_valued.
  clear K vs. intros K vs.
  assert (Hacc : ∀ (K : string) vs,
            Header_Set "Accept" "application/json; charset=utf-8" ∅ !! K = Some vs →
            List.length vs = 1%nat).
  { intros K' vs'. unfold Header_Set.
    destruct (decide (CanonicalMIMEHeaderKey "Accept" = K')) as [<-|Hne].
    - rewrite lookup_insert_eq. by intros [= <-].
    - by rewrite lookup_insert_ne, lookup_empty. }
  destruct (ctx_Value _ _) as [[requestID| | |]|]; try apply Hacc.
  unfold Header_Set at 1.
  destruct (decide (CanonicalMIMEHeaderKey (headerKeyRequestID c) = K)) as [<-|Hne].
  - rewrite lookup_insert_eq. by intros [= <-].
  - rewrite lookup_insert_ne by done. apply Hacc.
Qed.

Lemma headers_single_valued_witness :
  let pf := Scenario.answering (Scenario.response 200 "{}") in
  let c := NewHttpClient pf (Scenario.paramsWith None None [("accept", "text/plain")]) in
  let options := Scenario.request [] [("Accept", "text/html")] None None in
  ∃ req answer,
    trace (DoRequestWithOptions pf options c) = [EvDo req answer] ∧
    Header req !! "Accept" = Some ["text/html"] ∧
    List.length ["text/html"] = 1%nat.
Proof.
  intros pf c options. eexists _, _. split; [reflexivity|].
  split; [vm_compute; reflexivity|].
  eapply (headers_single_valued pf c options _ _ "Accept").
  - apply list_elem_of_here.
  - vm_compute. reflexivity.
Defined.

(** ** Replacing the default headers *)

(** X19. [SetHeaders] replaces the default headers as a whole: a request
    made after it carries no header under a key that is neither [Accept],
    nor the request-id header in use, nor the canonical key of one of the
    new default headers or of a header of the call, whatever the default
    headers were before. *)
Theorem SetHeaders_drops_old_defaults (pf : Platform) (c : HttpClient)
    (hs : list (string * string)) (options : RequestOptions)
    (req : Request) (answer : Response + GoError) (K : string) :
  EvDo req answer ∈ trace (DoRequestWithOptions pf options (after (SetHeaders hs c))) →
  K ≠ "Accept" →
  (fromContextRequestId c (default context_Background (Ctx options))).2 = false
    ∨ CanonicalMIMEHeaderKey (headerKeyRequestID c) ≠ K →
  Forall (λ kv, CanonicalMIMEHeaderKey kv.1 ≠ K) hs →
  Forall (λ kv, CanonicalMIMEHeaderKey kv.1 ≠ K) (Headers options) →
  Header req !! K = None.
Proof.
  intros Hin Hacc Hid Hhs Hcall.
  change (after (SetHeaders hs c)) with (withHeaders c hs) in Hin.
  destruct (DoRequestWithOptions_sent pf options (withHeaders c hs) req answer Hin)
    as (-> & _).
  rewrite requestHeaders_defaults, !setAll_lookup_other by done.
  cbn [withHeaders contextRequestId headerKeyRequestID].
  unfold fromContextRequestId in Hid.
  destruct (ctx_Value _ _) as [[requestID| | |]|];
    try (unfold Header_Set; by rewrite lookup_insert_ne, lookup_empty).
  destruct Hid as [Hid|Hid]; [discriminate Hid|].
  unfold Header_Set. by rewrite !lookup_insert_ne, lookup_empty.
Qed.

Lemma SetHeaders_drops_old_defaults_witness :
  let pf := Scenario.answering (Scenario.response 200 "{}") in
  let c := NewHttpClient pf (Scenario.paramsWith None None [("Authorization", "Bearer t")]) in
  let options := Scenario.request [] [] None None in
  (∃ req answer,
     trace (DoRequestWithOptions pf options c) = [EvDo req answer] ∧
     Header req !! "Authorization" = Some ["Bearer t"]) ∧
  (∃ req answer,
     trace (DoRequestWithOptions pf options (after (SetHeaders [("X-Api-Key", "k")] c)))
       = [EvDo req answer] ∧
     Header req !! "Authorization" = None).
Proof.
  intros pf c options. split.
  - eexists _, _. split; [reflexivity|]. vm_compute. reflexivity.
  - eexists _, _. split; [reflexivity|].
    eapply (SetHeaders_drops_old_defaults pf c [("X-Api-Key", "k")] options).
    + apply list_elem_of_here.
    + discriminate.
    + left. reflexivity.
    + repeat constructor. vm_compute. discriminate.
    + constructor.
Defined.

(** ** The convenience methods *)

(** [DoRequest] is a call without overrides, parameters or callback. *)
Lemma DoRequest_sent (pf : Platform) (c : HttpClient) ctx method url hs payload result
    (req : Request) (answer : Response + GoError) :
  EvDo req answer ∈ trace (DoRequest pf ctx method url hs payload result c) →
  reqMethod req = (if decide (method = "") then "GET" else method) ∧
  reqURL req =
    {| parsedFrom := baseUrl c +:+ url;
       RawQuery := Some (query_Encode pf (baseUrl c +:+ url) []) |} ∧
  (∃ enc, requestPayloadEncoder c = Some enc ∧
          enc payload = (reqBody req, None)) ∧
  trace (DoRequest pf ctx method url hs payload result c) = [EvDo req answer].
Proof.
  unfold DoRequest. intros Hin.
  destruct (DoRequestWithOptions_sent_request pf _ c req answer Hin)
    as (enc & stream & Henc & Hp & _ & Hreq & _ & Hrun).
  cbn [setDefaultOptions RequestPayloadEncoder Payload AfterCallback] in *.
  clear Hin. subst req. unfold requestOf, sentBody in *.
  cbn [reqMethod reqURL reqBody setDefaultOptions Method Url UrlParams AfterCallback] in *.
  repeat split; try reflexivity.
  - exists enc. by split.
  - by destruct answer; destruct Hrun.
Qed.

(** X20. [PostRequest] sends one [POST], with the body that the encoder
    of the client returns for the payload, and calls no callback.  The URL
    of the request is parsed from the base URL followed by the given URL,
    its query overwritten by the re-encoding of its own query values. *)
Theorem PostRequest_sends_encoded_payload (pf : Platform) (c : HttpClient)
    (ctx : option Context) (url : string) (hs : list (string * string))
    (payload result : option GoIface) (req : Request) (answer : Response + GoError) :
  EvDo req answer ∈ trace (PostRequest pf ctx url hs payload result c) →
  reqMethod req = "POST" ∧
  reqURL req =
    {| parsedFrom := baseUrl c +:+ url;
       RawQuery := Some (query_Encode pf (baseUrl c +:+ url) []) |} ∧
  (∃ enc, requestPayloadEncoder c = Some enc ∧ enc payload = (reqBody req, None)) ∧
  trace (PostRequest pf ctx url hs payload result c) = [EvDo req answer].
Proof. unfold PostRequest. intros Hin. by apply DoRequest_sent in Hin. Qed.

Lemma PostRequest_sends_encoded_payload_witness :
  let pf := Scenario.answering (Scenario.response 200 "{}") in
  let c := NewHttpClient pf Scenario.params in
  ∃ req answer,
    trace (PostRequest pf None "/qwe?b=2&a=1" [] (Some Scenario.text1) None c)
      = [EvDo req answer] ∧
    reqMethod req = "POST" ∧
    reqURL req = {| parsedFrom := "http://127.0.0.1:8080/qwe?b=2&a=1";
                    RawQuery := Some "a=1&b=2" |} ∧
    reqBody req = Some (bytes_NewBuffer "{}").
Proof.
  intros pf c. eexists _, _. split; [reflexivity|].
  match goal with
  | |- reqMethod ?rq = _ ∧ _ =>
      destruct (PostRequest_sends_encoded_payload pf c None "/qwe?b=2&a=1" []
                  (Some Scenario.text1) None rq (inl (Scenario.response 200 "{}")))
        as (Hm & Hu & _ & _)
  end.
  - apply list_elem_of_here.
  - split; [exact Hm|]. split; [exact Hu|reflexivity].
Defined.

(** X21. [GetRequest] sends a [GET] whose body is what the encoder of the
    client returns for the nil payload: no body with [GobEncoder], the
    bytes [null] with [JsonEncoder].  The URL of the request is parsed
    from the base URL followed by the given URL, its query overwritten by
    the re-encoding of its own query values. *)
Theorem GetRequest_sends_encoded_nil (pf : Platform) (c : HttpClient)
    (ctx : option Context) (url : string) (hs : list (string * string))
    (result : option GoIface) (req : Request) (answer : Response + GoError) :
  EvDo req answer ∈ trace (GetRequest pf ctx url hs result c) →
  reqMethod req = "GET" ∧
  reqURL req =
    {| parsedFrom := baseUrl c +:+ url;
       RawQuery := Some (query_Encode pf (baseUrl c +:+ url) []) |} ∧
  (∃ enc, requestPayloadEncoder c = Some enc ∧ enc None = (reqBody req, None)) ∧
  (requestPayloadEncoder c = Some GobEncoder → reqBody req = None) ∧
  (requestPayloadEncoder c = Some JsonEncoder →
   reqBody req = Some (bytes_NewBuffer "null")).
Proof.
  unfold GetRequest. intros Hin.
  apply DoRequest_sent in Hin as (Hm & Hu & (enc & Henc & Hp) & _).
  repeat split; try done.
  - by exists enc.
  - intros Hgob. rewrite Henc in Hgob. simplify_eq. by injection Hp.
  - intros Hjson. rewrite Henc in Hjson. simplify_eq. by injection Hp.
Qed.

Lemma GetRequest_sends_encoded_nil_witness :
  let pf := Scenario.answering (Scenario.response 200 "{}") in
  let c := NewHttpClient pf Scenario.params in
  ∃ req answer,
    trace (GetRequest pf None "/qwe?b=2&a=1" [] None c) = [EvDo req answer] ∧
    reqMethod req = "GET" ∧
    reqURL req = {| parsedFrom := "http://127.0.0.1:8080/qwe?b=2&a=1";
                    RawQuery := Some "a=1&b=2" |} ∧
    reqBody req = Some (bytes_NewBuffer "null").
Proof.
  intros pf c. eexists _, _. split; [reflexivity|].
  match goal with
  | |- reqMethod ?rq = _ ∧ _ =>
      destruct (GetRequest_sends_encoded_nil pf c None "/qwe?b=2&a=1" [] None rq
                  (inl (Scenario.response 200 "{}"))) as (Hm & Hu & _ & _ & Hjson)
  end.
  - apply list_elem_of_here.
  - split; [exact Hm|]. split; [exact Hu|]. apply Hjson. reflexivity.
Defined.

(** ** Codec resolution *)

(** X22. On a client built by [NewHttpClient], the encoder and the
    decoder of a call are the ones given for the call, else the ones given
    at construction, else the JSON ones; they are never nil. *)
Theorem codecs_resolved (pf : Platform) (params : HttpClientParams)
    (options : RequestOptions) :
  let options' := setDefaultOptions (NewHttpClient pf params) options in
  RequestPayloadEncoder options' =
    Some (match RequestPayloadEncoder options with
          | Some enc => enc
          | None => default JsonEncoder (p_RequestPayloadEncoder params)
          end) ∧
  RequestPayloadDecoder options' =
    Some (match RequestPayloadDecoder options with
          | Some dec => dec
          | None => default (JsonDecoder pf) (p_RequestPayloadDecoder params)
          end).
Proof.
  cbn. split.
  - by destruct (RequestPayloadEncoder options), (p_RequestPayloadEncoder params).
  - by destruct (RequestPayloadDecoder options), (p_RequestPayloadDecoder params).
Qed.

(** ** The equivalence of error values *)

(** X23. [Is] between [Err] values is an equivalence relation: every
    value is equivalent to itself, the order of the two values does not
    matter, and equivalence to a common value carries over. *)
Theorem Err_Is_equivalence (e1 e2 e3 : Err) :
  Err_Is e1 (ErrValue e1) = true ∧
  Err_Is e1 (ErrValue e2) = Err_Is e2 (ErrValue e1) ∧
  implb (Err_Is e1 (ErrValue e2) && Err_Is e2 (ErrValue e3)) (Err_Is e1 (ErrValue e3))
    = true.
Proof.
  cbn [Err_Is]. split; [by apply bool_decide_eq_true|]. split.
  - apply bool_decide_ext. split; congruence.
  - destruct (bool_decide (Code e1 = Code e2)) eqn:H12; [|done].
    destruct (bool_decide (Code e2 = Code e3)) eqn:H23; [|done].
    apply bool_decide_eq_true in H12, H23. cbn.
    apply bool_decide_eq_true. congruence.
Qed.
